(** * NFC card reader module: state machine, renderer and workers

    Shallow embedding of
      - [examples/02-Basic with FreeRTOS/src/main.cpp] and its [config.h]
        (three FreeRTOS tasks cooperating through task notifications), and
      - [examples/01-Basic functionality/src/main.cpp] (single-loop variant,
        in [Module Basic]).

    Every task is embedded as the body of ONE iteration of its [for (;;)]
    loop, a function on the globals it reads and writes.  What the task
    obtains from outside (the result of a PN532 poll, what the audio decoder
    does, the state observed by the card sensor) is an input of the
    iteration; notification bits raised by the other tasks and the passage
    of time are inputs between iterations.  The tick counter is part of the
    world: it advances by the amount of every [vTaskDelay] and by what the
    environment lets elapse between iterations, and the straight-line code of
    one iteration reads a single value of it.  Calls that are visible to the
    other tasks or to the scheduler ([xTaskNotify], [vTaskDelay], the PN532
    poll, the audio driver) are appended to an output trace. *)

From Stdlib Require Import ZArith Bool List Lia.
From stdpp Require Import base numbers list.

Local Open Scope Z_scope.

(** ** Machine integers *)

(** [uint32_t] / [TickType_t] *)
Definition wrap32 (x : Z) : Z := x mod 2 ^ 32.
(** [uint8_t] *)
Definition wrap8 (x : Z) : Z := x mod 2 ^ 8.
(** [int8_t] (two's complement) *)
Definition sint8 (x : Z) : Z := (x + 2 ^ 7) mod 2 ^ 8 - 2 ^ 7.
(** [long], 32 bits on the ESP32-S3 *)
Definition slong (x : Z) : Z := (x + 2 ^ 31) mod 2 ^ 32 - 2 ^ 31.

(** ** config.h *)

Definition NUM_LEDS : Z := 8.
Definition MIN_BRIGHTNESS : Z := 2.
Definition MAX_BRIGHTNESS : Z := 65.

Inductive ReaderState : Set :=
| STATE_IDLE
| STATE_CARD_DETECTED
| STATE_SUCCESS
| STATE_ERROR.

#[global] Instance ReaderState_eq_dec : EqDecision ReaderState.
Proof. solve_decision. Defined.

(** ** FastLED pixels *)

Record CRGB : Set := mkCRGB { red : Z; green : Z; blue : Z }.

Definition CRGB_Black : CRGB := mkCRGB 0 0 0.
Definition CRGB_Red : CRGB := mkCRGB 255 0 0.
Definition CRGB_Green : CRGB := mkCRGB 0 128 0.
Definition CRGB_Blue : CRGB := mkCRGB 0 0 255.
Definition CRGB_Yellow : CRGB := mkCRGB 255 255 0.

(** FastLED's [scale8] (fixed variant) applied to the three channels. *)
Definition nscale8 (c : CRGB) (scale : Z) : CRGB :=
  let s := fun ch => (ch * (scale + 1)) / 256 in
  mkCRGB (s (red c)) (s (green c)) (s (blue c)).

(** ** Globals of main.cpp (FreeRTOS variant) *)

Definition targetVol : Z := 21.
Definition CHASER_INTERVAL_MS : Z := 120.
Definition CHASER_COLOR : CRGB := CRGB_Blue.
Definition CHASER_DIM : Z := 22.

Definition EVT_CARD_DETECTED : Z := Z.shiftl 1 0.
Definition EVT_PLAY_SUCCESS : Z := Z.shiftl 1 1.
Definition EVT_AUDIO_DONE : Z := Z.shiftl 1 2.

(** The three task handles. *)
Inductive TaskHandle : Set := taskLedHandle | taskNfcHandle | taskAudioHandle.

#[global] Instance TaskHandle_eq_dec : EqDecision TaskHandle.
Proof. solve_decision. Defined.

(** Calls that leave the calling task. [Serial] output is not recorded. *)
Inductive Event : Set :=
| EvNotify (target : TaskHandle) (bits : Z)   (* xTaskNotify(.., eSetBits) *)
| EvDelay (ticks : Z)                         (* vTaskDelay *)
| EvPoll (timeout : Z)                        (* nfc.readPassiveTargetID *)
| EvSetVolume (v : Z)                         (* audio.setVolume *)
| EvConnect                                   (* audio.connecttoFS(SD, "/success.mp3") *)
| EvAudioLoop.                                (* audio.loop *)

#[global] Instance Event_eq_dec : EqDecision Event.
Proof. solve_decision. Defined.

(** [notif & bit] used as a condition. *)
Definition has_bit (notif bit : Z) : bool := negb (Z.land notif bit =? 0).

(** Globals read or written by [setup] and [TaskLEDState]. *)
Record World : Set := mkWorld {
  state : ReaderState;
  stateStartTick : Z;
  sdOk : bool;
  chaserIndex : Z;
  chaserDir : Z;
  lastStepTick : Z;            (* function-local static of runChaserStep *)
  leds : list CRGB;            (* CRGB leds[NUM_LEDS] *)
  brightness : Z;              (* FastLED's global brightness *)
  strip : Z * list CRGB;       (* last frame pushed by FastLED.show() *)
  tickCount : Z;               (* value of xTaskGetTickCount() *)
  ledNotify : Z;               (* notification value of TaskLEDState *)
  out : list Event
}.

Definition set_state v w :=
  mkWorld v (stateStartTick w) (sdOk w) (chaserIndex w) (chaserDir w)
    (lastStepTick w) (leds w) (brightness w) (strip w) (tickCount w)
    (ledNotify w) (out w).
Definition set_stateStartTick v w :=
  mkWorld (state w) v (sdOk w) (chaserIndex w) (chaserDir w)
    (lastStepTick w) (leds w) (brightness w) (strip w) (tickCount w)
    (ledNotify w) (out w).
Definition set_sdOk v w :=
  mkWorld (state w) (stateStartTick w) v (chaserIndex w) (chaserDir w)
    (lastStepTick w) (leds w) (brightness w) (strip w) (tickCount w)
    (ledNotify w) (out w).
Definition set_chaserIndex v w :=
  mkWorld (state w) (stateStartTick w) (sdOk w) v (chaserDir w)
    (lastStepTick w) (leds w) (brightness w) (strip w) (tickCount w)
    (ledNotify w) (out w).
Definition set_chaserDir v w :=
  mkWorld (state w) (stateStartTick w) (sdOk w) (chaserIndex w) v
    (lastStepTick w) (leds w) (brightness w) (strip w) (tickCount w)
    (ledNotify w) (out w).
Definition set_lastStepTick v w :=
  mkWorld (state w) (stateStartTick w) (sdOk w) (chaserIndex w) (chaserDir w)
    v (leds w) (brightness w) (strip w) (tickCount w)
    (ledNotify w) (out w).
Definition set_leds v w :=
  mkWorld (state w) (stateStartTick w) (sdOk w) (chaserIndex w) (chaserDir w)
    (lastStepTick w) v (brightness w) (strip w) (tickCount w)
    (ledNotify w) (out w).
Definition set_brightness v w :=
  mkWorld (state w) (stateStartTick w) (sdOk w) (chaserIndex w) (chaserDir w)
    (lastStepTick w) (leds w) v (strip w) (tickCount w)
    (ledNotify w) (out w).
Definition set_strip v w :=
  mkWorld (state w) (stateStartTick w) (sdOk w) (chaserIndex w) (chaserDir w)
    (lastStepTick w) (leds w) (brightness w) v (tickCount w)
    (ledNotify w) (out w).
Definition set_tickCount v w :=
  mkWorld (state w) (stateStartTick w) (sdOk w) (chaserIndex w) (chaserDir w)
    (lastStepTick w) (leds w) (brightness w) (strip w) v
    (ledNotify w) (out w).
Definition set_ledNotify v w :=
  mkWorld (state w) (stateStartTick w) (sdOk w) (chaserIndex w) (chaserDir w)
    (lastStepTick w) (leds w) (brightness w) (strip w) (tickCount w)
    v (out w).
Definition emit (e : Event) w :=
  mkWorld (state w) (stateStartTick w) (sdOk w) (chaserIndex w) (chaserDir w)
    (lastStepTick w) (leds w) (brightness w) (strip w) (tickCount w)
    (ledNotify w) (out w ++ [e]).

(** ** FastLED and Arduino calls *)

Definition FastLED_setBrightness (b : Z) (w : World) : World :=
  set_brightness (wrap8 b) w.

Definition FastLED_show (w : World) : World :=
  set_strip (brightness w, leds w) w.

(** [fill_solid(leds, NUM_LEDS, c)] *)
Definition fill_solid (c : CRGB) (w : World) : World :=
  set_leds (replicate (Z.to_nat NUM_LEDS) c) w.

(** [leds[i] = c].  An index outside the array is undefined behaviour in the
    source; here it leaves the array alone. *)
Definition store_led (i : Z) (c : CRGB) (w : World) : World :=
  if (0 <=? i) && (i <? NUM_LEDS)
  then set_leds (<[Z.to_nat i := c]> (leds w)) w
  else w.

(** Arduino's [long map(long x, long in_min, long in_max, long out_min,
    long out_max)]: integer linear interpolation, C division. *)
Definition map (x in_min in_max out_min out_max : Z) : Z :=
  slong (slong (slong (x - in_min) * slong (out_max - out_min))
           ÷ slong (in_max - in_min) + out_min).

(** What [nfc.readPassiveTargetID(.., uid, &uidLength, ..)] does to the
    buffer on success: the Adafruit driver copies the identifier to
    [uid[0 .. uidLength-1]] and leaves the rest of the array as it was.
    [buf] is the array (7 bytes in both programs); identifier bytes that
    would fall behind its end (a write outside the array, undefined
    behaviour in the source) are not stored. *)
Definition write_uid (bytes buf : list Z) : list Z :=
  take (length buf) (bytes ++ drop (length bytes) buf).

(** Globals written by [TaskNFC]. *)
Record NfcWorld : Set := mkNfcWorld {
  uid : list Z;                (* uint8_t uid[7] *)
  uidLength : Z;
  nfc_out : list Event
}.

Definition nfc_emit (e : Event) (n : NfcWorld) : NfcWorld :=
  mkNfcWorld (uid n) (uidLength n) (nfc_out n ++ [e]).

(** What [TaskAudio] reads and writes.  The [Audio] object belongs to the
    ESP32-audioI2S library; of it the task only uses [isRunning()], a flag
    that [connecttoFS] sets when the file could be opened and that [loop()]
    clears when the stream ends, and the volume. *)
Record AudioWorld : Set := mkAudioWorld {
  running : bool;              (* audio.isRunning() *)
  volume : Z;
  wasRunning : bool;           (* local of TaskAudio, lives across iterations *)
  audioNotify : Z;             (* notification value of TaskAudio *)
  audio_out : list Event
}.

Definition set_running v a :=
  mkAudioWorld v (volume a) (wasRunning a) (audioNotify a) (audio_out a).
Definition set_wasRunning v a :=
  mkAudioWorld (running a) (volume a) v (audioNotify a) (audio_out a).
Definition set_audioNotify v a :=
  mkAudioWorld (running a) (volume a) (wasRunning a) v (audio_out a).
Definition audio_emit (e : Event) a :=
  mkAudioWorld (running a) (volume a) (wasRunning a) (audioNotify a)
    (audio_out a ++ [e]).

(** [audio.setVolume(v)] *)
Definition audio_setVolume (v : Z) (a : AudioWorld) : AudioWorld :=
  audio_emit (EvSetVolume v)
    (mkAudioWorld (running a) v (wasRunning a) (audioNotify a) (audio_out a)).

(** [audio.loop()]; [ends] tells whether the stream ends during this call. *)
Definition audio_loop (ends : bool) (a : AudioWorld) : AudioWorld :=
  audio_emit EvAudioLoop (set_running (running a && negb ends) a).

(** [audio.connecttoFS(SD, "/success.mp3")]; [started] tells whether the
    decoder is running afterwards. *)
Definition audio_connecttoFS (started : bool) (a : AudioWorld) : AudioWorld :=
  audio_emit EvConnect (set_running started a).

Section FreeRTOS.

(** FreeRTOSConfig.h is not part of the repository: the tick rate is a
    parameter (1000 on the Arduino core for the ESP32).  The two macros are
    FreeRTOS's, on [TickType_t] = [uint32_t]. *)
Variable configTICK_RATE_HZ : Z.

Definition pdMS_TO_TICKS (ms : Z) : Z :=
  wrap32 (wrap32 (wrap32 ms * wrap32 configTICK_RATE_HZ) / 1000).
Definition portTICK_PERIOD_MS : Z := wrap32 (1000 / wrap32 configTICK_RATE_HZ).

Definition msToTicks (ms : Z) : Z := pdMS_TO_TICKS ms.

Definition xTaskGetTickCount (w : World) : Z := tickCount w.

(** [vTaskDelay]: the caller resumes [ticks] later. *)
Definition vTaskDelay (ticks : Z) (w : World) : World :=
  emit (EvDelay ticks) (set_tickCount (wrap32 (tickCount w + ticks)) w).

(** [xTaskNotify(taskLedHandle, bits, eSetBits)], as executed by a producer. *)
Definition xTaskNotify_led (bits : Z) (w : World) : World :=
  set_ledNotify (Z.lor (ledNotify w) bits) w.

(** ** Helpers *)

Definition setAllLeds (c : CRGB) (w : World) : World :=
  FastLED_show (fill_solid c w).

Definition changeState (newState : ReaderState) (w : World) : World :=
  let w := set_state newState w in
  set_stateStartTick (xTaskGetTickCount w) w.

Definition resetToIdle (w : World) : World :=
  let w := FastLED_setBrightness MAX_BRIGHTNESS w in
  let w := setAllLeds CRGB_Black w in
  let w := set_chaserIndex 0 w in
  let w := set_chaserDir 1 w in
  changeState STATE_IDLE w.

Definition errorState (w : World) : World :=
  let w := FastLED_setBrightness MAX_BRIGHTNESS w in
  let w := setAllLeds CRGB_Red w in
  changeState STATE_ERROR w.

Definition transitionToSuccess (w : World) : World :=
  let w := FastLED_setBrightness MAX_BRIGHTNESS w in
  let w := setAllLeds CRGB_Green w in
  if negb (sdOk w) then
    let w := vTaskDelay (msToTicks 250) w in
    resetToIdle w
  else
    let w := emit (EvNotify taskAudioHandle EVT_PLAY_SUCCESS) w in
    changeState STATE_SUCCESS w.

(** ** LED effects *)

Definition runChaserStep (w : World) : World :=
  let now := xTaskGetTickCount w in
  if msToTicks CHASER_INTERVAL_MS <=? wrap32 (now - lastStepTick w) then
    let dimColor := nscale8 CHASER_COLOR CHASER_DIM in
    let w := fill_solid dimColor w in
    let w := store_led (chaserIndex w) CHASER_COLOR w in
    let w := FastLED_show w in
    let w := set_chaserIndex (sint8 (chaserIndex w + chaserDir w)) w in
    let w :=
      if (NUM_LEDS - 1 <=? chaserIndex w) || (chaserIndex w <=? 0)
      then set_chaserDir (sint8 (- chaserDir w)) w
      else w in
    set_lastStepTick now w
  else w.

Definition RAMP_MS : Z := 2000.

(** [elapsedMs] as computed at the top of [runYellowRamp]. *)
Definition elapsedMs (w : World) : Z :=
  wrap32 (wrap32 (xTaskGetTickCount w - stateStartTick w) * portTICK_PERIOD_MS).

Definition runYellowRamp (w : World) : World :=
  let e := elapsedMs w in
  if e <=? RAMP_MS then
    let b := wrap8 (map e 0 RAMP_MS MIN_BRIGHTNESS MAX_BRIGHTNESS) in
    let w := FastLED_setBrightness b w in
    let w := fill_solid CRGB_Yellow w in
    FastLED_show w
  else
    let w := FastLED_setBrightness MAX_BRIGHTNESS w in
    transitionToSuccess w.

(** ** TaskLEDState *)

(** The statement before the loop. *)
Definition TaskLEDState_entry (w : World) : World := changeState STATE_IDLE w.

(** [xTaskNotifyWait(0, UINT32_MAX, &notif, 0)]: read the pending value and
    clear it; returns [notif] and the world. *)
Definition xTaskNotifyWait (w : World) : Z * World :=
  (ledNotify w, set_ledNotify 0 w).

(** The two [if (notif & ...)] statements. *)
Definition handleNotifications (notif : Z) (w : World) : World :=
  let w := if has_bit notif EVT_CARD_DETECTED
           then changeState STATE_CARD_DETECTED w else w in
  if has_bit notif EVT_AUDIO_DONE then resetToIdle w else w.

(** The [switch (state)]. *)
Definition renderState (w : World) : World :=
  match state w with
  | STATE_IDLE => runChaserStep w
  | STATE_CARD_DETECTED => runYellowRamp w
  | STATE_SUCCESS => w
  | STATE_ERROR => w
  end.

(** One iteration of the [for (;;)] of [TaskLEDState]. *)
Definition TaskLEDState_iter (w : World) : World :=
  let '(notif, w) := xTaskNotifyWait w in
  let w := handleNotifications notif w in
  let w := renderState w in
  vTaskDelay (msToTicks 10) w.

(** ** setup *)

(** Static initialisers of the globals; [t0] is the tick count at boot. *)
Definition initial_world (t0 : Z) : World :=
  mkWorld STATE_IDLE 0 false 0 1 0
    (replicate (Z.to_nat NUM_LEDS) CRGB_Black) 255 (255, []) (wrap32 t0) 0 [].

(** [setup], up to task creation.  [sdMounted] is the result of [SD.begin],
    [version] that of [nfc.getFirmwareVersion]. *)
Definition setup (sdMounted : bool) (version : Z) (w : World) : World :=
  let w := FastLED_setBrightness MAX_BRIGHTNESS w in
  let w := fill_solid CRGB_Black w in
  let w := FastLED_show w in
  let w := set_sdOk sdMounted w in
  if version =? 0 then errorState w else w.

(** Boot, until [TaskLEDState] reaches its loop. *)
Definition boot (sdMounted : bool) (version : Z) (t0 : Z) : World :=
  TaskLEDState_entry (setup sdMounted version (initial_world t0)).

(** ** Executions of the state machine *)

(** What happens between and around iterations of [TaskLEDState]: a producer
    raises notification bits, time passes, or the task runs one iteration. *)
Inductive Input : Set :=
| Raise (bits : Z)
| Elapse (ticks : Z)
| Tick.

Definition step (w : World) (i : Input) : World :=
  match i with
  | Raise bits => xTaskNotify_led bits w
  | Elapse ticks => set_tickCount (wrap32 (tickCount w + ticks)) w
  | Tick => TaskLEDState_iter w
  end.

Definition run (w : World) (ins : list Input) : World := fold_left step ins w.

(** ** TaskNFC *)

(** One iteration of the [for (;;)] of [TaskNFC].  [observed] is the value of
    the global [state] read by the condition; [tag] is what
    [readPassiveTargetID] finds within its 50 ms, if it is called. *)
Definition TaskNFC_iter (observed : ReaderState) (tag : option (list Z))
    (n : NfcWorld) : NfcWorld :=
  if decide (observed = STATE_IDLE) then
    let n := nfc_emit (EvPoll 50) n in
    match tag with
    | Some bytes =>
        let n := mkNfcWorld (write_uid bytes (uid n))
                   (Z.of_nat (length bytes)) (nfc_out n) in
        let n := nfc_emit (EvNotify taskLedHandle EVT_CARD_DETECTED) n in
        nfc_emit (EvDelay (msToTicks 300)) n
    | None => nfc_emit (EvDelay (msToTicks 40)) n
    end
  else nfc_emit (EvDelay (msToTicks 80)) n.

Definition TaskNFC_run (n : NfcWorld)
    (ins : list (ReaderState * option (list Z))) : NfcWorld :=
  fold_left (fun n i => TaskNFC_iter (fst i) (snd i) n) ins n.

(** ** TaskAudio *)

Definition audio_vTaskDelay (ticks : Z) (a : AudioWorld) : AudioWorld :=
  audio_emit (EvDelay ticks) a.

(** [for (int v = 0; v <= targetVol; v++) { setVolume(v); vTaskDelay(5 ms); }] *)
Definition fadeIn (a : AudioWorld) : AudioWorld :=
  fold_left
    (fun a v => audio_vTaskDelay (pdMS_TO_TICKS 5) (audio_setVolume v a))
    (seqZ 0 (targetVol + 1)) a.

(** The body of [if (notif & EVT_PLAY_SUCCESS)]. *)
Definition handlePlayRequest (started : bool) (a : AudioWorld) : AudioWorld :=
  let a := audio_setVolume 0 a in
  let a := audio_vTaskDelay (pdMS_TO_TICKS 10) a in
  let a := audio_connecttoFS started a in
  let a := audio_vTaskDelay (pdMS_TO_TICKS 20) a in
  if negb (running a) then
    let a := audio_setVolume targetVol a in
    audio_emit (EvNotify taskLedHandle EVT_AUDIO_DONE) a
  else fadeIn a.

(** The block under "Detect end of playback". *)
Definition detectEnd (a : AudioWorld) : AudioWorld :=
  let r := running a in
  let a := if wasRunning a && negb r
           then audio_emit (EvNotify taskLedHandle EVT_AUDIO_DONE) a
           else a in
  set_wasRunning r a.

(** One iteration of the [for (;;)] of [TaskAudio]. *)
Definition TaskAudio_iter (ends started : bool) (a : AudioWorld) : AudioWorld :=
  let a := if running a then audio_loop ends a else a in
  let notif := audioNotify a in
  let a := set_audioNotify 0 a in
  let a := if has_bit notif EVT_PLAY_SUCCESS
           then handlePlayRequest started a else a in
  let a := detectEnd a in
  audio_vTaskDelay (msToTicks 2) a.

(** [TaskAudio] before its first iteration: nothing is playing, volume as
    left by [setup]. *)
Definition audio_boot : AudioWorld := mkAudioWorld false targetVol false 0 [].

Inductive AudioInput : Set :=
| ARaise (bits : Z)                   (* xTaskNotify(taskAudioHandle, bits, eSetBits) *)
| ATick (ends started : bool).        (* one iteration *)

Definition audio_step (a : AudioWorld) (i : AudioInput) : AudioWorld :=
  match i with
  | ARaise bits => set_audioNotify (Z.lor (audioNotify a) bits) a
  | ATick ends started => TaskAudio_iter ends started a
  end.

Definition audio_run (a : AudioWorld) (ins : list AudioInput) : AudioWorld :=
  fold_left audio_step ins a.

End FreeRTOS.

(** ** The single-loop variant (01-Basic functionality) *)

Module Basic.

Definition CHASER_INTERVAL : Z := 120.

(** Globals of the single-loop main.cpp. *)
Record World : Set := mkWorld {
  state : ReaderState;
  stateStart : Z;              (* unsigned long *)
  chaserIndex : Z;
  chaserDir : Z;
  lastStep : Z;                (* function-local static of runChaserEffect *)
  leds : list CRGB;
  brightness : Z;
  strip : Z * list CRGB;
  millis : Z;                  (* value of millis() *)
  audioRunning : bool;         (* audio.isRunning() *)
  uid : list Z;
  uidLength : Z
}.

Definition set_state v w :=
  mkWorld v (stateStart w) (chaserIndex w) (chaserDir w) (lastStep w) (leds w)
    (brightness w) (strip w) (millis w) (audioRunning w) (uid w) (uidLength w).
Definition set_stateStart v w :=
  mkWorld (state w) v (chaserIndex w) (chaserDir w) (lastStep w) (leds w)
    (brightness w) (strip w) (millis w) (audioRunning w) (uid w) (uidLength w).
Definition set_chaserIndex v w :=
  mkWorld (state w) (stateStart w) v (chaserDir w) (lastStep w) (leds w)
    (brightness w) (strip w) (millis w) (audioRunning w) (uid w) (uidLength w).
Definition set_chaserDir v w :=
  mkWorld (state w) (stateStart w) (chaserIndex w) v (lastStep w) (leds w)
    (brightness w) (strip w) (millis w) (audioRunning w) (uid w) (uidLength w).
Definition set_lastStep v w :=
  mkWorld (state w) (stateStart w) (chaserIndex w) (chaserDir w) v (leds w)
    (brightness w) (strip w) (millis w) (audioRunning w) (uid w) (uidLength w).
Definition set_leds v w :=
  mkWorld (state w) (stateStart w) (chaserIndex w) (chaserDir w) (lastStep w) v
    (brightness w) (strip w) (millis w) (audioRunning w) (uid w) (uidLength w).
Definition set_brightness v w :=
  mkWorld (state w) (stateStart w) (chaserIndex w) (chaserDir w) (lastStep w)
    (leds w) v (strip w) (millis w) (audioRunning w) (uid w) (uidLength w).
Definition set_strip v w :=
  mkWorld (state w) (stateStart w) (chaserIndex w) (chaserDir w) (lastStep w)
    (leds w) (brightness w) v (millis w) (audioRunning w) (uid w) (uidLength w).
Definition set_audioRunning v w :=
  mkWorld (state w) (stateStart w) (chaserIndex w) (chaserDir w) (lastStep w)
    (leds w) (brightness w) (strip w) (millis w) v (uid w) (uidLength w).
Definition set_uid bytes w :=
  mkWorld (state w) (stateStart w) (chaserIndex w) (chaserDir w) (lastStep w)
    (leds w) (brightness w) (strip w) (millis w) (audioRunning w)
    (write_uid bytes (uid w)) (Z.of_nat (length bytes)).

Definition FastLED_setBrightness (b : Z) (w : World) : World :=
  set_brightness (wrap8 b) w.
Definition FastLED_show (w : World) : World :=
  set_strip (brightness w, leds w) w.
Definition fill_solid (c : CRGB) (w : World) : World :=
  set_leds (replicate (Z.to_nat NUM_LEDS) c) w.
Definition store_led (i : Z) (c : CRGB) (w : World) : World :=
  if (0 <=? i) && (i <? NUM_LEDS)
  then set_leds (<[Z.to_nat i := c]> (leds w)) w
  else w.

Definition changeState (newState : ReaderState) (w : World) : World :=
  let w := set_state newState w in
  set_stateStart (millis w) w.

Definition resetToIdle (w : World) : World :=
  let w := fill_solid CRGB_Black w in
  let w := FastLED_setBrightness MAX_BRIGHTNESS w in
  let w := FastLED_show w in
  let w := set_chaserIndex 0 w in
  let w := set_chaserDir 1 w in
  changeState STATE_IDLE w.

(** [started]: whether [audio.connecttoFS] leaves the decoder running. *)
Definition transitionToSuccess (started : bool) (w : World) : World :=
  let w := fill_solid CRGB_Green w in
  let w := FastLED_show w in
  let w := set_audioRunning started w in
  changeState STATE_SUCCESS w.

Definition errorState (w : World) : World :=
  let w := fill_solid CRGB_Red w in
  let w := FastLED_show w in
  changeState STATE_ERROR w.

Definition runChaserEffect (w : World) : World :=
  if CHASER_INTERVAL <=? wrap32 (millis w - lastStep w) then
    let dimColor := nscale8 CHASER_COLOR CHASER_DIM in
    let w := fill_solid dimColor w in
    let w := store_led (chaserIndex w) CHASER_COLOR w in
    let w := FastLED_show w in
    let w := set_chaserIndex (sint8 (chaserIndex w + chaserDir w)) w in
    let w :=
      if (NUM_LEDS - 1 <=? chaserIndex w) || (chaserIndex w <=? 0)
      then set_chaserDir (sint8 (- chaserDir w)) w
      else w in
    set_lastStep (millis w) w
  else w.

Definition RAMP_MS : Z := 2000.

Definition yellowRamp (started : bool) (w : World) : World :=
  let t := wrap32 (millis w - stateStart w) in
  if t <=? RAMP_MS then
    let b := wrap8 (map t 0 RAMP_MS MIN_BRIGHTNESS MAX_BRIGHTNESS) in
    let w := FastLED_setBrightness b w in
    let w := fill_solid CRGB_Yellow w in
    FastLED_show w
  else
    let w := FastLED_setBrightness MAX_BRIGHTNESS w in
    transitionToSuccess started w.

Definition cardPolling (tag : option (list Z)) (w : World) : World :=
  match tag with
  | Some bytes => changeState STATE_CARD_DETECTED (set_uid bytes w)
  | None => w
  end.

(** One call of [loop()].  [ends]: the stream ends during [audio.loop()];
    [tag]: result of the PN532 poll; [started]: result of [connecttoFS]. *)
Definition loop (ends : bool) (tag : option (list Z)) (started : bool)
    (w : World) : World :=
  let w := if audioRunning w
           then set_audioRunning (audioRunning w && negb ends) w else w in
  match state w with
  | STATE_IDLE => cardPolling tag (runChaserEffect w)
  | STATE_CARD_DETECTED => yellowRamp started w
  | STATE_SUCCESS => if negb (audioRunning w) then resetToIdle w else w
  | STATE_ERROR => w
  end.

(** [setup()]; [version] is the result of [nfc.getFirmwareVersion]. *)
Definition setup (version : Z) (w : World) : World :=
  let w := FastLED_setBrightness MAX_BRIGHTNESS w in
  let w := fill_solid CRGB_Black w in
  let w := FastLED_show w in
  let w := if version =? 0 then errorState w else w in
  changeState STATE_IDLE w.

End Basic.

(** ** Vocabulary of the statements *)

(** Neither of the two flags [TaskLEDState] reacts to is in [notif]. *)
Definition no_flag (notif : Z) : Prop :=
  has_bit notif EVT_CARD_DETECTED = false /\ has_bit notif EVT_AUDIO_DONE = false.

(** The reachable chaser positions: inside the strip, moving inwards at
    either end. *)
Definition chaser_ok (w : World) : Prop :=
  0 <= chaserIndex w <= NUM_LEDS - 1 /\
  (chaserDir w = 1 \/ chaserDir w = -1) /\
  (chaserIndex w = 0 -> chaserDir w = 1) /\
  (chaserIndex w = NUM_LEDS - 1 -> chaserDir w = -1).

(** The world after boot followed by the inputs [ins]. *)
Definition reached (hz : Z) (sdMounted : bool) (version t0 : Z)
    (ins : list Input) : World :=
  run hz (boot sdMounted version t0) ins.

(** The world on which an iteration of [TaskLEDState] enters its [switch]:
    notifications drained and handled. *)
Definition at_switch (w : World) : World :=
  handleNotifications (ledNotify w) (set_ledNotify 0 w).

(** The test at the top of [runChaserStep]. *)
Definition chaser_due (hz : Z) (w : World) : bool :=
  msToTicks hz CHASER_INTERVAL_MS <=? wrap32 (xTaskGetTickCount w - lastStepTick w).

(** Counting events of a kind in a trace. *)
Fixpoint count (p : Event -> bool) (l : list Event) : nat :=
  match l with
  | [] => O
  | e :: l => ((if p e then 1 else 0) + count p l)%nat
  end.

(** A play request sent to the audio task. *)
Definition is_play_request (e : Event) : bool :=
  match e with
  | EvNotify taskAudioHandle bits => has_bit bits EVT_PLAY_SUCCESS
  | _ => false
  end.

(** A PlaybackDone flag raised on the state-machine task. *)
Definition is_done (e : Event) : bool :=
  match e with
  | EvNotify taskLedHandle bits => has_bit bits EVT_AUDIO_DONE
  | _ => false
  end.

(** [connecttoFS] is called once for every play request the audio task
    drains, and nowhere else. *)
Definition is_connect (e : Event) : bool :=
  match e with
  | EvConnect => true
  | _ => false
  end.

(** An input of the audio task that raises no play request. *)
Definition no_play (i : AudioInput) : Prop :=
  match i with
  | ARaise bits => has_bit bits EVT_PLAY_SUCCESS = false
  | ATick _ _ => True
  end.

(** The calls made by one iteration of [TaskNFC]. *)
Definition nfc_events (hz : Z) (observed : ReaderState) (tag : option (list Z))
    : list Event :=
  nfc_out (TaskNFC_iter hz observed tag (mkNfcWorld (replicate 7 0) 0 [])).

(** Every play request of the run is drained when the task has recorded the
    end of every earlier playback: [wasRunning] is false when the request is
    drained.  ([wasRunning] is only written at the end of an iteration, so
    its value at the drain is its value when the iteration starts; a stream
    that [audio.loop()] ended earlier in the same iteration is not yet
    recorded as ended.) *)
Fixpoint serialized (hz : Z) (a : AudioWorld) (ins : list AudioInput) : bool :=
  match ins with
  | [] => true
  | i :: rest =>
      match i with
      | ARaise _ => true
      | ATick _ _ =>
          implb (has_bit (audioNotify a) EVT_PLAY_SUCCESS) (negb (wasRunning a))
      end
      && serialized hz (audio_step hz a i) rest
  end.

Definition b2n (b : bool) : nat := if b then 1%nat else 0%nat.

(** ** Concrete executions, at the tick rate of the Arduino core (1 kHz) *)

Definition arduino_hz : Z := 1000.

(** A detection while Idle, one iteration, 2001 ticks, one iteration. *)
Definition detection_cycle : list Input :=
  [Raise EVT_CARD_DETECTED; Tick; Elapse 2001; Tick].

(** Storage mounted, reader present, one detection cycle: waiting in Success
    for the end of the playback. *)
Definition world_in_success : World :=
  reached arduino_hz true 1 0 detection_cycle.

(** In the ramp, 10 ticks after the detection; storage mounted. *)
Definition world_ramping : World :=
  reached arduino_hz true 1 0 [Raise EVT_CARD_DETECTED; Tick].

(** In the ramp, exactly 2000 ms after the detection; storage mounted. *)
Definition world_at_window_end : World :=
  reached arduino_hz true 1 0 [Raise EVT_CARD_DETECTED; Tick; Elapse 1990].

(** In the ramp, 2011 ms after the detection; storage not mounted. *)
Definition world_ramp_over_no_sd : World :=
  reached arduino_hz false 1 0 [Raise EVT_CARD_DETECTED; Tick; Elapse 2001].



(** ** Executions of the single-loop variant *)

(** Static initialisers of the single-loop globals; [t0] is [millis()] when
    [setup] starts. *)
Definition basic_initial_world (t0 : Z) : Basic.World :=
  Basic.mkWorld STATE_IDLE 0 0 1 0
    (replicate (Z.to_nat NUM_LEDS) CRGB_Black) 255 (255, []) (wrap32 t0)
    false (replicate 7 0) 0.

(** Time passes, or [loop()] is called once. *)
Inductive BasicInput : Set :=
| BElapse (ms : Z)
| BLoop (ends : bool) (tag : option (list Z)) (started : bool).

Definition basic_step (w : Basic.World) (i : BasicInput) : Basic.World :=
  match i with
  | BElapse ms =>
      Basic.mkWorld (Basic.state w) (Basic.stateStart w) (Basic.chaserIndex w)
        (Basic.chaserDir w) (Basic.lastStep w) (Basic.leds w)
        (Basic.brightness w) (Basic.strip w) (wrap32 (Basic.millis w + ms))
        (Basic.audioRunning w) (Basic.uid w) (Basic.uidLength w)
  | BLoop ends tag started => Basic.loop ends tag started w
  end.

Definition basic_run (w : Basic.World) (ins : list BasicInput) : Basic.World :=
  fold_left basic_step ins w.

(** [setup()] followed by the calls of [loop()] in [ins]. *)
Definition basic_reached (version t0 : Z) (ins : list BasicInput) : Basic.World :=
  basic_run (Basic.setup version (basic_initial_world t0)) ins.

(** The reachable chaser positions of the single-loop variant. *)
Definition basic_chaser_ok (w : Basic.World) : Prop :=
  0 <= Basic.chaserIndex w <= NUM_LEDS - 1 /\
  (Basic.chaserDir w = 1 \/ Basic.chaserDir w = -1) /\
  (Basic.chaserIndex w = 0 -> Basic.chaserDir w = 1) /\
  (Basic.chaserIndex w = NUM_LEDS - 1 -> Basic.chaserDir w = -1).

(** ** More vocabulary for the FreeRTOS variant *)

(** The world [ticks] later, nothing else having happened. *)
Definition later (ticks : Z) (w : World) : World :=
  set_tickCount (wrap32 (tickCount w + ticks)) w.

(** One chaser step taken as soon as it is due: the tick counter is moved to
    one interval after the previous step, then [runChaserStep] runs. *)
Definition chaser_tick (hz : Z) (w : World) : World :=
  runChaserStep hz
    (set_tickCount (wrap32 (lastStepTick w + msToTicks hz CHASER_INTERVAL_MS)) w).

(** The colour of the positions that are not lit. *)
Definition dimColor : CRGB := nscale8 CHASER_COLOR CHASER_DIM.




(** The update of (chaserIndex, chaserDir) made by a chaser step. *)
Definition chaser_update (p : Z * Z) : Z * Z :=
  let i := sint8 (fst p + snd p) in
  (i, if (NUM_LEDS - 1 <=? i) || (i <=? 0) then sint8 (- snd p) else snd p).

(** Brightness, current and of the last frame shown, within the configured
    bounds. *)
Definition bright_ok (w : World) : Prop :=
  MIN_BRIGHTNESS <= brightness w <= MAX_BRIGHTNESS /\
  MIN_BRIGHTNESS <= fst (strip w) <= MAX_BRIGHTNESS.

(** The identifier the consumer reads: the first [uidLength] bytes of the
    buffer. *)
Definition nfc_identifier (n : NfcWorld) : list Z :=
  take (Z.to_nat (uidLength n)) (uid n).


(** The card sensor before its first iteration: [uid] and [uidLength] are
    zero-initialised statics. *)
Definition nfc_boot : NfcWorld := mkNfcWorld (replicate 7 0) 0 [].

(** Storage mounted, 2011 ms into the ramp. *)
Definition world_ramp_over : World :=
  reached arduino_hz true 1 0 [Raise EVT_CARD_DETECTED; Tick; Elapse 2001].

(** A play request drained in the iteration in which [audio.loop()] ends the
    previous stream. *)
Definition request_at_stream_end : list AudioInput :=
  [ARaise EVT_PLAY_SUCCESS; ATick false true;
   ARaise EVT_PLAY_SUCCESS; ATick true true;
   ATick true false].

(** The iterations of a run that move the machine into Success. *)
Fixpoint success_entries (hz : Z) (w : World) (ins : list Input) : nat :=
  match ins with
  | [] => O
  | i :: rest =>
      ((if bool_decide (state w <> STATE_SUCCESS /\
                        state (step hz w i) = STATE_SUCCESS)
        then 1 else 0)
       + success_entries hz (step hz w i) rest)%nat
  end.

(** The test at the top of [runChaserEffect], and the elapsed time computed
    by [yellowRamp]. *)
Definition basic_chaser_due (w : Basic.World) : bool :=
  Basic.CHASER_INTERVAL <=? wrap32 (Basic.millis w - Basic.lastStep w).
Definition basic_elapsed (w : Basic.World) : Z :=
  wrap32 (Basic.millis w - Basic.stateStart w).

(** More concrete worlds. *)

(** 120 ms after boot: the first chaser step is due. *)
Definition world_chaser_due : World := later 120 (boot true 1 0).

(** Five ticks before the tick counter overflows. *)
Definition world_near_overflow : World := initial_world (2 ^ 32 - 5).

(** Idle with a detection pending. *)
Definition world_card_pending : World :=
  xTaskNotify_led EVT_CARD_DETECTED (boot true 1 0).

(** Single-loop variant: a tag is found by the first [loop()], then 2001 ms
    pass. *)
Definition basic_world_ramp_over : Basic.World :=
  basic_reached 1 0 [BLoop false (Some [4; 17; 34; 51]) false; BElapse 2001].

(** An input other than an iteration of the task, and one that raises
    PlaybackDone. *)
Definition not_tick (i : Input) : Prop :=
  match i with Tick => False | _ => True end.
Definition raises_done (i : Input) : Prop :=
  match i with Raise bits => has_bit bits EVT_AUDIO_DONE = true | _ => False end.

(** Ramping, with a PlaybackDone raised while time passes. *)
Definition done_between_iterations : list Input :=
  [Elapse 3; Raise EVT_AUDIO_DONE; Raise EVT_PLAY_SUCCESS; Elapse 4].

(** * Properties *)

Section Properties.

Variable hz : Z.

(** ** Notification bits *)

Lemma has_bit_lor (a b bit : Z) :
  has_bit (Z.lor a b) bit = has_bit a bit || has_bit b bit.
Proof.
  unfold has_bit. rewrite Z.land_lor_distr_l.
  destruct (Z.eqb_spec (Z.land a bit) 0) as [Ha | Ha],
           (Z.eqb_spec (Z.land b bit) 0) as [Hb | Hb]; simpl.
  - rewrite Ha, Hb. reflexivity.
  - apply negb_true_iff, Z.eqb_neq. rewrite Z.lor_eq_0_iff. tauto.
  - apply negb_true_iff, Z.eqb_neq. rewrite Z.lor_eq_0_iff. tauto.
  - apply negb_true_iff, Z.eqb_neq. rewrite Z.lor_eq_0_iff. tauto.
Qed.

(** ** What each piece of [TaskLEDState] does to [state] and [sdOk] *)

Lemma sdOk_handleNotifications notif w :
  sdOk (handleNotifications notif w) = sdOk w.
Proof.
  unfold handleNotifications.
  destruct (has_bit notif EVT_CARD_DETECTED), (has_bit notif EVT_AUDIO_DONE);
    reflexivity.
Qed.

Lemma state_handleNotifications notif w :
  state (handleNotifications notif w) =
    if has_bit notif EVT_AUDIO_DONE then STATE_IDLE
    else if has_bit notif EVT_CARD_DETECTED then STATE_CARD_DETECTED
    else state w.
Proof.
  unfold handleNotifications.
  destruct (has_bit notif EVT_CARD_DETECTED), (has_bit notif EVT_AUDIO_DONE);
    reflexivity.
Qed.

Lemma state_runChaserStep w : state (runChaserStep hz w) = state w.
Proof.
  unfold runChaserStep.
  destruct (_ <=? _); [| reflexivity].
  match goal with |- context [if ?c then _ else _] => destruct c end;
    unfold store_led; destruct (_ && _); reflexivity.
Qed.

Lemma sdOk_runChaserStep w : sdOk (runChaserStep hz w) = sdOk w.
Proof.
  unfold runChaserStep.
  destruct (_ <=? _); [| reflexivity].
  match goal with |- context [if ?c then _ else _] => destruct c end;
    unfold store_led; destruct (_ && _); reflexivity.
Qed.

Lemma sdOk_transitionToSuccess w : sdOk (transitionToSuccess hz w) = sdOk w.
Proof.
  unfold transitionToSuccess.
  change (sdOk (setAllLeds CRGB_Green (FastLED_setBrightness MAX_BRIGHTNESS w)))
    with (sdOk w).
  destruct (sdOk w) eqn:E; exact E.
Qed.

Lemma state_transitionToSuccess w :
  state (transitionToSuccess hz w) =
    if sdOk w then STATE_SUCCESS else STATE_IDLE.
Proof.
  unfold transitionToSuccess.
  change (sdOk (setAllLeds CRGB_Green (FastLED_setBrightness MAX_BRIGHTNESS w)))
    with (sdOk w).
  destruct (sdOk w); reflexivity.
Qed.

Lemma sdOk_runYellowRamp w : sdOk (runYellowRamp hz w) = sdOk w.
Proof.
  unfold runYellowRamp.
  destruct (_ <=? _); [reflexivity |].
  rewrite sdOk_transitionToSuccess. reflexivity.
Qed.

Lemma state_runYellowRamp w :
  state (runYellowRamp hz w) =
    if elapsedMs hz w <=? RAMP_MS then state w
    else if sdOk w then STATE_SUCCESS else STATE_IDLE.
Proof.
  unfold runYellowRamp.
  destruct (_ <=? _); [reflexivity |].
  rewrite state_transitionToSuccess. reflexivity.
Qed.

Lemma sdOk_renderState w : sdOk (renderState hz w) = sdOk w.
Proof.
  unfold renderState.
  destruct (state w);
    auto using sdOk_runChaserStep, sdOk_runYellowRamp.
Qed.

Lemma state_renderState w :
  state (renderState hz w) =
    match state w with
    | STATE_CARD_DETECTED =>
        if elapsedMs hz w <=? RAMP_MS then STATE_CARD_DETECTED
        else if sdOk w then STATE_SUCCESS else STATE_IDLE
    | s => s
    end.
Proof.
  unfold renderState.
  destruct (state w) eqn:Hs.
  - rewrite state_runChaserStep. exact Hs.
  - rewrite state_runYellowRamp, Hs. reflexivity.
  - exact Hs.
  - exact Hs.
Qed.

(** The iteration, seen from the notification value it drains. *)
Lemma TaskLEDState_iter_unfold w :
  TaskLEDState_iter hz w =
    vTaskDelay (msToTicks hz 10)
      (renderState hz (handleNotifications (ledNotify w) (set_ledNotify 0 w))).
Proof. reflexivity. Qed.

Lemma sdOk_TaskLEDState_iter w : sdOk (TaskLEDState_iter hz w) = sdOk w.
Proof.
  rewrite TaskLEDState_iter_unfold.
  change (sdOk (vTaskDelay ?t ?x)) with (sdOk x).
  rewrite sdOk_renderState, sdOk_handleNotifications. reflexivity.
Qed.

Lemma state_TaskLEDState_iter w :
  state (TaskLEDState_iter hz w) =
    state (renderState hz
             (handleNotifications (ledNotify w) (set_ledNotify 0 w))).
Proof. reflexivity. Qed.

Lemma sdOk_step w i : sdOk (step hz w i) = sdOk w.
Proof. destruct i; [reflexivity | reflexivity | apply sdOk_TaskLEDState_iter]. Qed.

Lemma sdOk_run ins : forall w, sdOk (run hz w ins) = sdOk w.
Proof.
  unfold run.
  induction ins as [| i ins IH]; intros w; simpl; [reflexivity |].
  rewrite IH. apply sdOk_step.
Qed.

(** ** The ramp right after a [changeState] *)

Lemma elapsedMs_changeState s w : elapsedMs hz (changeState s w) = 0.
Proof.
  unfold elapsedMs, changeState, xTaskGetTickCount. simpl.
  rewrite Z.sub_diag. reflexivity.
Qed.

Lemma runYellowRamp_in_window w :
  (elapsedMs hz w <=? RAMP_MS) = true ->
  runYellowRamp hz w =
    FastLED_show
      (fill_solid CRGB_Yellow
         (FastLED_setBrightness
            (wrap8 (map (elapsedMs hz w) 0 RAMP_MS MIN_BRIGHTNESS MAX_BRIGHTNESS))
            w)).
Proof. intros H. unfold runYellowRamp. rewrite H. reflexivity. Qed.

Lemma runYellowRamp_after_window w :
  (elapsedMs hz w <=? RAMP_MS) = false ->
  runYellowRamp hz w =
    transitionToSuccess hz (FastLED_setBrightness MAX_BRIGHTNESS w).
Proof. intros H. unfold runYellowRamp. rewrite H. reflexivity. Qed.

(** A drained card flag without a done flag: the iteration, in full. *)
Lemma TaskLEDState_iter_card_only w :
  has_bit (ledNotify w) EVT_CARD_DETECTED = true ->
  has_bit (ledNotify w) EVT_AUDIO_DONE = false ->
  TaskLEDState_iter hz w =
    vTaskDelay (msToTicks hz 10)
      (runYellowRamp hz (changeState STATE_CARD_DETECTED (set_ledNotify 0 w))).
Proof.
  intros Hc Hd. rewrite TaskLEDState_iter_unfold.
  unfold handleNotifications. rewrite Hc, Hd. reflexivity.
Qed.

(** A drained done flag: the iteration, in full. *)
Lemma TaskLEDState_iter_done w :
  has_bit (ledNotify w) EVT_AUDIO_DONE = true ->
  TaskLEDState_iter hz w =
    vTaskDelay (msToTicks hz 10)
      (runChaserStep hz
         (resetToIdle
            (if has_bit (ledNotify w) EVT_CARD_DETECTED
             then changeState STATE_CARD_DETECTED (set_ledNotify 0 w)
             else set_ledNotify 0 w))).
Proof.
  intros Hd. rewrite TaskLEDState_iter_unfold.
  unfold handleNotifications. rewrite Hd. reflexivity.
Qed.

(** No flag drained: only the renderer runs. *)
Lemma TaskLEDState_iter_no_flag w :
  has_bit (ledNotify w) EVT_CARD_DETECTED = false ->
  has_bit (ledNotify w) EVT_AUDIO_DONE = false ->
  TaskLEDState_iter hz w =
    vTaskDelay (msToTicks hz 10) (renderState hz (set_ledNotify 0 w)).
Proof.
  intros Hc Hd. rewrite TaskLEDState_iter_unfold.
  unfold handleNotifications. rewrite Hc, Hd. reflexivity.
Qed.

(** ** C8 *)

(** C8. Every call of the reset-to-idle operation, in the FreeRTOS variant and
    in the single-loop variant, returns with: state Idle, strip brightness at
    the configured maximum, every position of the pixel buffer and of the
    frame shown on the strip black, chaser index 0 and chaser direction +1. *)
Theorem resetToIdle_post (w : World) (b : Basic.World) :
  (state (resetToIdle w) = STATE_IDLE /\
   brightness (resetToIdle w) = MAX_BRIGHTNESS /\
   leds (resetToIdle w) = replicate (Z.to_nat NUM_LEDS) CRGB_Black /\
   strip (resetToIdle w) =
     (MAX_BRIGHTNESS, replicate (Z.to_nat NUM_LEDS) CRGB_Black) /\
   chaserIndex (resetToIdle w) = 0 /\
   chaserDir (resetToIdle w) = 1) /\
  (Basic.state (Basic.resetToIdle b) = STATE_IDLE /\
   Basic.brightness (Basic.resetToIdle b) = MAX_BRIGHTNESS /\
   Basic.leds (Basic.resetToIdle b) = replicate (Z.to_nat NUM_LEDS) CRGB_Black /\
   Basic.strip (Basic.resetToIdle b) =
     (MAX_BRIGHTNESS, replicate (Z.to_nat NUM_LEDS) CRGB_Black) /\
   Basic.chaserIndex (Basic.resetToIdle b) = 0 /\
   Basic.chaserDir (Basic.resetToIdle b) = 1).
Proof. repeat split. Qed.

(** Inside an iteration of [TaskLEDState], the state only becomes Idle through
    [resetToIdle]: in the notification handlers ... *)
Lemma idle_entered_by_reset_in_handlers notif w :
  state w <> STATE_IDLE ->
  state (handleNotifications notif w) = STATE_IDLE ->
  exists w0, handleNotifications notif w = resetToIdle w0.
Proof.
  intros Hne. unfold handleNotifications.
  destruct (has_bit notif EVT_AUDIO_DONE); [eauto |].
  destruct (has_bit notif EVT_CARD_DETECTED); [discriminate | contradiction].
Qed.

(** ... and in the renderer. *)
Lemma idle_entered_by_reset_in_render w :
  state w <> STATE_IDLE ->
  state (renderState hz w) = STATE_IDLE ->
  exists w0, renderState hz w = resetToIdle w0.
Proof.
  intros Hne. unfold renderState.
  destruct (state w) eqn:Hs; try congruence.
  unfold runYellowRamp. destruct (_ <=? _).
  - simpl. congruence.
  - unfold transitionToSuccess. destruct (negb _); [eauto | discriminate].
Qed.

(** ** C10 *)

Lemma audio_done_resets_from_every_state_aux w :
  has_bit (ledNotify w) EVT_AUDIO_DONE = true ->
  state (TaskLEDState_iter hz w) = STATE_IDLE.
Proof.
  intros Hd. rewrite TaskLEDState_iter_done by assumption.
  change (state (vTaskDelay ?t ?x)) with (state x).
  rewrite state_runChaserStep. reflexivity.
Qed.

(** C10. If an iteration of the state-machine task drains a PlaybackDone flag,
    then whatever the state was (Idle, CardDetected, Success or Error) the
    notification handlers perform the whole reset-to-idle operation, and the
    iteration ends in Idle; in particular a ramp in progress is abandoned. *)
Theorem audio_done_resets_from_every_state (w : World) :
  has_bit (ledNotify w) EVT_AUDIO_DONE = true ->
  handleNotifications (ledNotify w) (set_ledNotify 0 w) =
    resetToIdle
      (if has_bit (ledNotify w) EVT_CARD_DETECTED
       then changeState STATE_CARD_DETECTED (set_ledNotify 0 w)
       else set_ledNotify 0 w) /\
  state (TaskLEDState_iter hz w) = STATE_IDLE.
Proof.
  intros Hd. split.
  - unfold handleNotifications. rewrite Hd. reflexivity.
  - apply audio_done_resets_from_every_state_aux. exact Hd.
Qed.

(** ** C9 *)

(** The invariant behind C9, one step at a time. *)
Lemma success_needs_sd_step w i :
  (state w = STATE_SUCCESS -> sdOk w = true) ->
  state (step hz w i) = STATE_SUCCESS -> sdOk (step hz w i) = true.
Proof.
  intros Inv. rewrite sdOk_step. destruct i as [bits | ticks |].
  - exact Inv.
  - exact Inv.
  - unfold step. rewrite state_TaskLEDState_iter, state_renderState.
    rewrite state_handleNotifications, sdOk_handleNotifications.
    change (sdOk (set_ledNotify 0 w)) with (sdOk w).
    change (state (set_ledNotify 0 w)) with (state w).
    destruct (has_bit (ledNotify w) EVT_AUDIO_DONE); [discriminate |].
    destruct (has_bit (ledNotify w) EVT_CARD_DETECTED).
    + destruct (_ <=? _); [discriminate |].
      destruct (sdOk w); [reflexivity | discriminate].
    + destruct (state w); try discriminate.
      * destruct (_ <=? _); [discriminate |].
        destruct (sdOk w); [reflexivity | discriminate].
      * intros _. apply Inv. reflexivity.
Qed.

Lemma success_needs_sd_run ins : forall w,
  (state w = STATE_SUCCESS -> sdOk w = true) ->
  state (run hz w ins) = STATE_SUCCESS -> sdOk (run hz w ins) = true.
Proof.
  unfold run.
  induction ins as [| i ins IH]; intros w Inv; simpl; [exact Inv |].
  apply IH. apply success_needs_sd_step. exact Inv.
Qed.

(** C9. In every state the FreeRTOS variant reaches from boot (whatever the
    result of mounting the storage and of probing the reader, whatever flags
    are raised and however time passes between iterations of the
    state-machine task), state = Success implies that the storage was
    mounted. *)
Theorem success_implies_sdOk (sdMounted : bool) (version t0 : Z)
    (ins : list Input) :
  state (reached hz sdMounted version t0 ins) = STATE_SUCCESS ->
  sdOk (reached hz sdMounted version t0 ins) = true /\ sdMounted = true.
Proof.
  unfold reached. intros Hs.
  assert (Hb : sdOk (boot sdMounted version t0) = sdMounted).
  { unfold boot, setup. destruct (version =? 0); reflexivity. }
  assert (H : sdOk (run hz (boot sdMounted version t0) ins) = true).
  { apply success_needs_sd_run; [| exact Hs]. discriminate. }
  split; [exact H |].
  rewrite sdOk_run, Hb in H. exact H.
Qed.

(** ** C2 *)

(** C2 (as the code has it). A drained CardDetected flag (without
    PlaybackDone) puts the machine in CardDetected from every state and
    restarts the ramp clock: in CardDetected the state is unchanged, in
    Success and Error it changes.  The notification value is a bit set, so a
    flag raised again before the drain merges with the pending one, and the
    drain clears it. *)
Theorem card_flag_enters_ramp_from_every_state (w : World) :
  has_bit (ledNotify w) EVT_CARD_DETECTED = true ->
  has_bit (ledNotify w) EVT_AUDIO_DONE = false ->
  state (TaskLEDState_iter hz w) = STATE_CARD_DETECTED /\
  stateStartTick (TaskLEDState_iter hz w) = tickCount w /\
  ledNotify (TaskLEDState_iter hz w) = 0 /\
  (state w = STATE_CARD_DETECTED ->
     state (TaskLEDState_iter hz w) = state w) /\
  (state w = STATE_SUCCESS \/ state w = STATE_ERROR ->
     state (TaskLEDState_iter hz w) <> state w) /\
  xTaskNotify_led EVT_CARD_DETECTED (xTaskNotify_led EVT_CARD_DETECTED w) =
    xTaskNotify_led EVT_CARD_DETECTED w.
Proof.
  intros Hc Hd.
  rewrite TaskLEDState_iter_card_only by assumption.
  rewrite runYellowRamp_in_window
    by (rewrite elapsedMs_changeState; reflexivity).
  split; [reflexivity |]. split; [reflexivity |]. split; [reflexivity |].
  split; [| split].
  - intros Hs. symmetry. exact Hs.
  - intros [Hs | Hs] He; rewrite Hs in He; discriminate He.
  - unfold xTaskNotify_led, set_ledNotify. simpl.
    rewrite <- Z.lor_assoc, Z.lor_diag. reflexivity.
Qed.

(** ** C6 *)

Lemma sint8_small x : - 2 ^ 7 <= x < 2 ^ 7 -> sint8 x = x.
Proof. intros H. unfold sint8. rewrite Z.mod_small; lia. Qed.

(** Index and direction after [runChaserStep]. *)
Lemma chaser_runChaserStep w :
  (chaserIndex (runChaserStep hz w), chaserDir (runChaserStep hz w)) =
    if chaser_due hz w then
      let i := sint8 (chaserIndex w + chaserDir w) in
      (i, if (NUM_LEDS - 1 <=? i) || (i <=? 0)
          then sint8 (- chaserDir w) else chaserDir w)
    else (chaserIndex w, chaserDir w).
Proof.
  unfold runChaserStep, chaser_due.
  destruct (_ <=? _); [| reflexivity].
  unfold store_led. destruct (_ && _); simpl;
    destruct (_ || _); reflexivity.
Qed.

Lemma chaser_ok_runChaserStep w : chaser_ok w -> chaser_ok (runChaserStep hz w).
Proof.
  unfold chaser_ok. intros (Hi & Hd & H0 & HN).
  pose proof (chaser_runChaserStep w) as E.
  destruct (chaser_due hz w).
  - simpl in E.
    rewrite (sint8_small (chaserIndex w + chaserDir w)) in E
      by (unfold NUM_LEDS in *; lia).
    rewrite (sint8_small (- chaserDir w)) in E by lia.
    destruct ((NUM_LEDS - 1 <=? chaserIndex w + chaserDir w)
              || (chaserIndex w + chaserDir w <=? 0)) eqn:B;
      injection E as Ei Ed; rewrite Ei, Ed.
    + apply orb_true_iff in B. unfold NUM_LEDS in *. lia.
    + apply orb_false_iff in B. unfold NUM_LEDS in *. lia.
  - injection E as Ei Ed. rewrite Ei, Ed. tauto.
Qed.

Lemma chaser_ok_resetToIdle w : chaser_ok (resetToIdle w).
Proof. unfold chaser_ok, NUM_LEDS. simpl. lia. Qed.

Lemma chaser_ok_handleNotifications notif w :
  chaser_ok w -> chaser_ok (handleNotifications notif w).
Proof.
  intros H. unfold handleNotifications.
  destruct (has_bit notif EVT_AUDIO_DONE); [apply chaser_ok_resetToIdle |].
  destruct (has_bit notif EVT_CARD_DETECTED); exact H.
Qed.

Lemma chaser_ok_runYellowRamp w : chaser_ok w -> chaser_ok (runYellowRamp hz w).
Proof.
  intros H. unfold runYellowRamp. destruct (_ <=? _); [exact H |].
  unfold transitionToSuccess. destruct (negb _);
    [apply chaser_ok_resetToIdle | exact H].
Qed.

Lemma chaser_ok_step w i : chaser_ok w -> chaser_ok (step hz w i).
Proof.
  intros H. destruct i as [bits | ticks |]; [exact H | exact H |].
  unfold step. rewrite TaskLEDState_iter_unfold.
  assert (H1 : chaser_ok (handleNotifications (ledNotify w) (set_ledNotify 0 w))).
  { apply chaser_ok_handleNotifications. exact H. }
  revert H1. generalize (handleNotifications (ledNotify w) (set_ledNotify 0 w)).
  intros w1 H1.
  assert (H2 : chaser_ok (renderState hz w1)).
  { unfold renderState. destruct (state w1);
      auto using chaser_ok_runChaserStep, chaser_ok_runYellowRamp. }
  exact H2.
Qed.

Lemma chaser_ok_run ins : forall w, chaser_ok w -> chaser_ok (run hz w ins).
Proof.
  unfold run.
  induction ins as [| i ins IH]; intros w H; simpl; [exact H |].
  apply IH, chaser_ok_step, H.
Qed.

Lemma chaser_ok_boot sdMounted version t0 : chaser_ok (boot sdMounted version t0).
Proof.
  unfold boot, setup, chaser_ok, NUM_LEDS.
  destruct (version =? 0); simpl; lia.
Qed.

(** C6. At every iteration of the state-machine task in an execution from
    boot, the chaser index is within [0, NUM_LEDS - 1] before the iteration,
    when the switch is entered, and after the chaser step; the direction is
    +1 or -1; a step that is due moves the index by the direction; and the
    direction is inverted exactly when a step was taken and the index after
    the step is NUM_LEDS - 1 or 0 (on these executions the code's test
    "index >= NUM_LEDS - 1 or index <= 0" holds at exactly these two values),
    otherwise it is unchanged. *)
Theorem chaser_index_in_range_and_reflects (sdMounted : bool) (version t0 : Z)
    (ins : list Input) :
  0 <= chaserIndex (reached hz sdMounted version t0 ins) <= NUM_LEDS - 1 /\
  0 <= chaserIndex (at_switch (reached hz sdMounted version t0 ins))
    <= NUM_LEDS - 1 /\
  (chaserDir (at_switch (reached hz sdMounted version t0 ins)) = 1 \/
   chaserDir (at_switch (reached hz sdMounted version t0 ins)) = -1) /\
  0 <= chaserIndex
         (runChaserStep hz (at_switch (reached hz sdMounted version t0 ins)))
    <= NUM_LEDS - 1 /\
  chaserIndex (runChaserStep hz (at_switch (reached hz sdMounted version t0 ins))) =
    (if chaser_due hz (at_switch (reached hz sdMounted version t0 ins))
     then chaserIndex (at_switch (reached hz sdMounted version t0 ins))
          + chaserDir (at_switch (reached hz sdMounted version t0 ins))
     else chaserIndex (at_switch (reached hz sdMounted version t0 ins))) /\
  chaserDir (runChaserStep hz (at_switch (reached hz sdMounted version t0 ins))) =
    (if chaser_due hz (at_switch (reached hz sdMounted version t0 ins))
        && bool_decide
             (chaserIndex
                (runChaserStep hz (at_switch (reached hz sdMounted version t0 ins)))
                = NUM_LEDS - 1
              \/ chaserIndex
                   (runChaserStep hz (at_switch (reached hz sdMounted version t0 ins)))
                = 0)
     then - chaserDir (at_switch (reached hz sdMounted version t0 ins))
     else chaserDir (at_switch (reached hz sdMounted version t0 ins))).
Proof.
  pose proof (chaser_ok_run ins _ (chaser_ok_boot sdMounted version t0)) as Hok0.
  fold (reached hz sdMounted version t0 ins) in Hok0.
  split; [apply Hok0 |].
  assert (Hok : chaser_ok (at_switch (reached hz sdMounted version t0 ins))).
  { apply chaser_ok_handleNotifications. exact Hok0. }
  clear Hok0.
  revert Hok. generalize (at_switch (reached hz sdMounted version t0 ins)).
  intros w Hok.
  pose proof (chaser_ok_runChaserStep w Hok) as Hok'.
  pose proof (chaser_runChaserStep w) as E.
  destruct Hok as (Hi & Hd & H0 & HN). destruct Hok' as (Hi' & _).
  split; [exact Hi |]. split; [exact Hd |]. split; [exact Hi' |].
  destruct (chaser_due hz w); simpl in E |- *.
  - rewrite (sint8_small (chaserIndex w + chaserDir w)) in E
      by (unfold NUM_LEDS in *; lia).
    rewrite (sint8_small (- chaserDir w)) in E by lia.
    injection E as Ei Ed. split; [exact Ei |].
    rewrite Ed, Ei.
    destruct ((NUM_LEDS - 1 <=? chaserIndex w + chaserDir w)
              || (chaserIndex w + chaserDir w <=? 0)) eqn:B.
    + apply orb_true_iff in B. rewrite bool_decide_eq_true_2; [reflexivity |].
      rewrite Ei in Hi'. unfold NUM_LEDS in *. lia.
    + apply orb_false_iff in B. rewrite bool_decide_eq_false_2; [reflexivity |].
      unfold NUM_LEDS in *. lia.
  - injection E as Ei Ed. split; assumption.
Qed.

(** ** C5 *)

Lemma slong_small x : - 2 ^ 31 <= x < 2 ^ 31 -> slong x = x.
Proof. intros H. unfold slong. rewrite Z.mod_small; lia. Qed.

Lemma wrap8_small x : 0 <= x < 2 ^ 8 -> wrap8 x = x.
Proof. intros H. unfold wrap8. apply Z.mod_small. exact H. Qed.

Lemma elapsedMs_range w : 0 <= elapsedMs hz w < 2 ^ 32.
Proof. unfold elapsedMs, wrap32. apply Z.mod_pos_bound. lia. Qed.

(** Inside the window [map] is the (floored) linear interpolation. *)
Lemma map_ramp e :
  0 <= e <= RAMP_MS ->
  map e 0 RAMP_MS MIN_BRIGHTNESS MAX_BRIGHTNESS =
    MIN_BRIGHTNESS + e * (MAX_BRIGHTNESS - MIN_BRIGHTNESS) / RAMP_MS.
Proof.
  unfold map, RAMP_MS, MIN_BRIGHTNESS, MAX_BRIGHTNESS. intros He.
  replace (e - 0) with e by lia.
  change (slong (65 - 2)) with 63. change (slong (2000 - 0)) with 2000.
  change (65 - 2) with 63.
  rewrite (slong_small e) by lia.
  rewrite (slong_small (e * 63)) by lia.
  rewrite Z.quot_div_nonneg by lia.
  assert (0 <= e * 63 / 2000 <= 63).
  { split; [apply Z.div_pos; lia |].
    apply Z.div_le_upper_bound; lia. }
  rewrite slong_small by lia. lia.
Qed.

Lemma map_ramp_range e :
  0 <= e <= RAMP_MS ->
  MIN_BRIGHTNESS <= map e 0 RAMP_MS MIN_BRIGHTNESS MAX_BRIGHTNESS
    <= MAX_BRIGHTNESS.
Proof.
  intros He. rewrite map_ramp by exact He.
  unfold RAMP_MS, MIN_BRIGHTNESS, MAX_BRIGHTNESS in *.
  assert (0 <= e * (65 - 2) / 2000 <= 63).
  { split; [apply Z.div_pos; lia |].
    apply Z.div_le_upper_bound; lia. }
  lia.
Qed.

(** The brightness [runYellowRamp] leaves, as a function of [elapsedMs]. *)
Lemma brightness_runYellowRamp w :
  brightness (runYellowRamp hz w) =
    if elapsedMs hz w <=? RAMP_MS
    then MIN_BRIGHTNESS
         + elapsedMs hz w * (MAX_BRIGHTNESS - MIN_BRIGHTNESS) / RAMP_MS
    else MAX_BRIGHTNESS.
Proof.
  pose proof (elapsedMs_range w) as Hr.
  destruct (elapsedMs hz w <=? RAMP_MS) eqn:E.
  - rewrite runYellowRamp_in_window by exact E.
    apply Z.leb_le in E.
    change (brightness (FastLED_show (fill_solid ?c (FastLED_setBrightness ?b ?x))))
      with (wrap8 b).
    pose proof (map_ramp_range (elapsedMs hz w)) as Hm.
    rewrite !wrap8_small;
      unfold MIN_BRIGHTNESS, MAX_BRIGHTNESS in *; try lia.
    + apply map_ramp. lia.
    + rewrite wrap8_small; lia.
  - rewrite runYellowRamp_after_window by exact E.
    unfold transitionToSuccess. destruct (negb _); reflexivity.
Qed.

(** C5 (as the code has it). The brightness left by the ramp is a
    non-decreasing function of the elapsed time computed by the code; up to
    and including the window duration it is the linear interpolation from
    MIN_BRIGHTNESS to MAX_BRIGHTNESS (integer division), and from the window
    duration on it is MAX_BRIGHTNESS.  The transition to Success is taken
    when the elapsed time is strictly greater than the window duration: with
    the storage mounted the state becomes Success, one play request is sent
    and the frame is green at MAX_BRIGHTNESS; with the storage unavailable
    the state becomes Idle after the 250 ms delay, nothing is sent and the
    frame is black.  At exactly the window duration the state is left as it
    is and nothing is sent. *)
Theorem ramp_brightness_monotone_and_clamped (w : World) :
  (elapsedMs hz w <= RAMP_MS ->
     brightness (runYellowRamp hz w) =
       MIN_BRIGHTNESS
       + elapsedMs hz w * (MAX_BRIGHTNESS - MIN_BRIGHTNESS) / RAMP_MS) /\
  (RAMP_MS <= elapsedMs hz w ->
     brightness (runYellowRamp hz w) = MAX_BRIGHTNESS) /\
  (forall w2, elapsedMs hz w <= elapsedMs hz w2 ->
     brightness (runYellowRamp hz w) <= brightness (runYellowRamp hz w2)) /\
  (RAMP_MS < elapsedMs hz w ->
     runYellowRamp hz w =
       transitionToSuccess hz (FastLED_setBrightness MAX_BRIGHTNESS w)) /\
  (elapsedMs hz w <= RAMP_MS ->
     state (runYellowRamp hz w) = state w /\
     out (runYellowRamp hz w) = out w) /\
  (RAMP_MS < elapsedMs hz w ->
     state (runYellowRamp hz w) =
       (if sdOk w then STATE_SUCCESS else STATE_IDLE) /\
     out (runYellowRamp hz w) =
       out w ++ [if sdOk w then EvNotify taskAudioHandle EVT_PLAY_SUCCESS
                 else EvDelay (msToTicks hz 250)] /\
     strip (runYellowRamp hz w) =
       (MAX_BRIGHTNESS,
        replicate (Z.to_nat NUM_LEDS)
          (if sdOk w then CRGB_Green else CRGB_Black))).
Proof.
  pose proof (elapsedMs_range w) as Hr.
  split; [| split; [| split; [| split; [| split]]]].
  - intros He. rewrite brightness_runYellowRamp.
    apply Z.leb_le in He. rewrite He. reflexivity.
  - intros He. rewrite brightness_runYellowRamp.
    destruct (Z.leb_spec (elapsedMs hz w) RAMP_MS) as [Hle | Hgt];
      [| reflexivity].
    replace (elapsedMs hz w) with RAMP_MS by lia. reflexivity.
  - intros w2 Hle. rewrite !brightness_runYellowRamp.
    pose proof (elapsedMs_range w2) as Hr2.
    unfold RAMP_MS, MIN_BRIGHTNESS, MAX_BRIGHTNESS in *.
    destruct (Z.leb_spec (elapsedMs hz w) 2000) as [H1 | H1],
             (Z.leb_spec (elapsedMs hz w2) 2000) as [H2 | H2]; try lia.
    + apply Z.add_le_mono_l, Z.div_le_mono; lia.
    + assert (elapsedMs hz w * (65 - 2) / 2000 <= 63)
        by (apply Z.div_le_upper_bound; lia).
      lia.
  - intros He. apply runYellowRamp_after_window, Z.leb_gt, He.
  - intros He. apply Z.leb_le in He.
    rewrite runYellowRamp_in_window by exact He. split; reflexivity.
  - intros He.
    rewrite runYellowRamp_after_window by (apply Z.leb_gt; exact He).
    unfold transitionToSuccess.
    change (sdOk (setAllLeds CRGB_Green
                    (FastLED_setBrightness MAX_BRIGHTNESS
                       (FastLED_setBrightness MAX_BRIGHTNESS w))))
      with (sdOk w).
    destruct (sdOk w); repeat split.
Qed.

(** ** Traces *)

Lemma count_app p l1 l2 : count p (l1 ++ l2) = (count p l1 + count p l2)%nat.
Proof.
  induction l1 as [| e l1 IH]; simpl; [reflexivity |].
  rewrite IH. lia.
Qed.

Lemma out_handleNotifications notif w : out (handleNotifications notif w) = out w.
Proof.
  unfold handleNotifications.
  destruct (has_bit notif EVT_CARD_DETECTED), (has_bit notif EVT_AUDIO_DONE);
    reflexivity.
Qed.

Lemma out_runChaserStep w : out (runChaserStep hz w) = out w.
Proof.
  unfold runChaserStep.
  destruct (_ <=? _); [| reflexivity].
  match goal with |- context [if ?c then _ else _] => destruct c end;
    unfold store_led; destruct (_ && _); reflexivity.
Qed.

Lemma out_transitionToSuccess w :
  out (transitionToSuccess hz w) =
    out w ++ [if sdOk w then EvNotify taskAudioHandle EVT_PLAY_SUCCESS
              else EvDelay (msToTicks hz 250)].
Proof.
  unfold transitionToSuccess.
  change (sdOk (setAllLeds CRGB_Green (FastLED_setBrightness MAX_BRIGHTNESS w)))
    with (sdOk w).
  destruct (sdOk w); reflexivity.
Qed.

Lemma out_renderState w :
  out (renderState hz w) =
    out w ++
      match state w with
      | STATE_CARD_DETECTED =>
          if elapsedMs hz w <=? RAMP_MS then []
          else [if sdOk w then EvNotify taskAudioHandle EVT_PLAY_SUCCESS
                else EvDelay (msToTicks hz 250)]
      | _ => []
      end.
Proof.
  unfold renderState. destruct (state w).
  - rewrite out_runChaserStep, app_nil_r. reflexivity.
  - unfold runYellowRamp. destruct (_ <=? _).
    + rewrite app_nil_r. reflexivity.
    + rewrite out_transitionToSuccess. reflexivity.
  - rewrite app_nil_r. reflexivity.
  - rewrite app_nil_r. reflexivity.
Qed.

Lemma play_requests_step w i :
  sdOk w = false ->
  count is_play_request (out (step hz w i)) = count is_play_request (out w).
Proof.
  intros Hsd. destruct i as [bits | ticks |]; [reflexivity | reflexivity |].
  unfold step. rewrite TaskLEDState_iter_unfold.
  change (out (vTaskDelay ?t ?x)) with (out x ++ [EvDelay t]).
  rewrite out_renderState, sdOk_handleNotifications, out_handleNotifications.
  change (sdOk (set_ledNotify 0 w)) with (sdOk w). rewrite Hsd.
  change (out (set_ledNotify 0 w)) with (out w).
  rewrite !count_app.
  destruct (state _); simpl; try lia.
  destruct (_ <=? _); simpl; lia.
Qed.

Lemma play_requests_run ins : forall w,
  sdOk w = false ->
  count is_play_request (out (run hz w ins)) = count is_play_request (out w).
Proof.
  unfold run.
  induction ins as [| i ins IH]; intros w Hsd; simpl; [reflexivity |].
  rewrite IH by (rewrite sdOk_step; exact Hsd).
  apply play_requests_step, Hsd.
Qed.

(** ** The audio task when nothing is playing and nothing is requested *)

Lemma TaskAudio_iter_idle ends started a :
  running a = false -> wasRunning a = false ->
  has_bit (audioNotify a) EVT_PLAY_SUCCESS = false ->
  TaskAudio_iter hz ends started a =
    audio_vTaskDelay (msToTicks hz 2) (set_wasRunning false (set_audioNotify 0 a)).
Proof.
  intros Hr Hw Hn. unfold TaskAudio_iter. rewrite Hr. cbv zeta.
  rewrite Hn. unfold detectEnd.
  change (running (set_audioNotify 0 a)) with (running a).
  change (wasRunning (set_audioNotify 0 a)) with (wasRunning a).
  rewrite Hr, Hw. reflexivity.
Qed.

Lemma audio_idle_step a i :
  running a = false -> wasRunning a = false ->
  has_bit (audioNotify a) EVT_PLAY_SUCCESS = false -> no_play i ->
  running (audio_step hz a i) = false /\
  wasRunning (audio_step hz a i) = false /\
  has_bit (audioNotify (audio_step hz a i)) EVT_PLAY_SUCCESS = false /\
  count is_done (audio_out (audio_step hz a i)) = count is_done (audio_out a).
Proof.
  intros Hr Hw Hn Hi. destruct i as [bits | ends started]; simpl in Hi.
  - simpl. rewrite has_bit_lor, Hn, Hi. auto.
  - unfold audio_step. rewrite TaskAudio_iter_idle by assumption.
    change (audio_out (audio_vTaskDelay ?t ?x)) with (audio_out x ++ [EvDelay t]).
    rewrite count_app. simpl. repeat split; try assumption. lia.
Qed.

Lemma audio_idle_run ins : forall a,
  running a = false -> wasRunning a = false ->
  has_bit (audioNotify a) EVT_PLAY_SUCCESS = false -> Forall no_play ins ->
  running (audio_run hz a ins) = false /\
  count is_done (audio_out (audio_run hz a ins)) = count is_done (audio_out a).
Proof.
  unfold audio_run.
  induction ins as [| i ins IH]; intros a Hr Hw Hn Hq; simpl; [auto |].
  inversion Hq as [| ? ? Hi Hrest]; subst.
  destruct (audio_idle_step a i Hr Hw Hn Hi) as (Hr' & Hw' & Hn' & Hc').
  destruct (IH _ Hr' Hw' Hn' Hrest) as [Hr'' Hc''].
  split; [exact Hr'' | congruence].
Qed.

(** ** C4 *)

(** C4. With the storage unavailable (sdOk false): the transition operation
    invoked at the end of the ramp returns in Idle after one delay of 250 ms
    and sends nothing to the audio task; the iteration that ends the ramp
    therefore finishes in Idle after 250 ms plus its own 10 ms; no execution
    of the state-machine task ever issues a play request; and the audio
    task, never receiving a play request, never raises PlaybackDone and
    never starts playing. *)
Theorem no_storage_success_returns_to_idle (w : World) :
  sdOk w = false ->
  (state (transitionToSuccess hz w) = STATE_IDLE /\
   tickCount (transitionToSuccess hz w) =
     wrap32 (tickCount w + msToTicks hz 250) /\
   out (transitionToSuccess hz w) = out w ++ [EvDelay (msToTicks hz 250)]) /\
  (state w = STATE_CARD_DETECTED -> no_flag (ledNotify w) ->
   RAMP_MS < elapsedMs hz w ->
     state (TaskLEDState_iter hz w) = STATE_IDLE /\
     tickCount (TaskLEDState_iter hz w) =
       wrap32 (wrap32 (tickCount w + msToTicks hz 250) + msToTicks hz 10) /\
     out (TaskLEDState_iter hz w) =
       out w ++ [EvDelay (msToTicks hz 250); EvDelay (msToTicks hz 10)]) /\
  (forall ins,
     count is_play_request (out (run hz w ins)) = count is_play_request (out w)) /\
  (forall ains, Forall no_play ains ->
     running (audio_run hz audio_boot ains) = false /\
     count is_done (audio_out (audio_run hz audio_boot ains)) = O).
Proof.
  intros Hsd.
  assert (Ht : transitionToSuccess hz w =
               resetToIdle
                 (vTaskDelay (msToTicks hz 250)
                    (setAllLeds CRGB_Green
                       (FastLED_setBrightness MAX_BRIGHTNESS w)))).
  { unfold transitionToSuccess.
    change (sdOk (setAllLeds CRGB_Green (FastLED_setBrightness MAX_BRIGHTNESS w)))
      with (sdOk w).
    rewrite Hsd. reflexivity. }
  split; [| split; [| split]].
  - rewrite Ht. repeat split.
  - intros Hs [Hc Hd] He.
    rewrite TaskLEDState_iter_no_flag by assumption.
    unfold renderState.
    change (state (set_ledNotify 0 w)) with (state w). rewrite Hs.
    rewrite runYellowRamp_after_window by (apply Z.leb_gt; exact He).
    unfold transitionToSuccess.
    change (sdOk (setAllLeds CRGB_Green
                    (FastLED_setBrightness MAX_BRIGHTNESS
                       (FastLED_setBrightness MAX_BRIGHTNESS (set_ledNotify 0 w)))))
      with (sdOk w).
    rewrite Hsd. simpl negb. cbv iota.
    split; [reflexivity |]. split; [reflexivity |].
    change (out w ++ [EvDelay (msToTicks hz 250); EvDelay (msToTicks hz 10)])
      with (out w ++ [EvDelay (msToTicks hz 250)] ++ [EvDelay (msToTicks hz 10)]).
    rewrite app_assoc. reflexivity.
  - intros ins. apply play_requests_run, Hsd.
  - intros ains Hq.
    apply (audio_idle_run ains audio_boot); auto.
Qed.

(** ** C7 *)

Lemma TaskNFC_iter_out observed tag n :
  nfc_out (TaskNFC_iter hz observed tag n) =
    nfc_out n ++ nfc_events hz observed tag.
Proof.
  unfold nfc_events, TaskNFC_iter.
  destruct (decide (observed = STATE_IDLE)); [| reflexivity].
  destruct tag; simpl; rewrite <- ?app_assoc; reflexivity.
Qed.

(** What [write_uid] does: the buffer keeps its size, its first bytes are the
    identifier (as far as the buffer goes) and the bytes behind the
    identifier are untouched. *)
Lemma write_uid_spec (bytes buf : list Z) :
  length (write_uid bytes buf) = length buf /\
  take (length bytes) (write_uid bytes buf) = take (length buf) bytes /\
  drop (length bytes) (write_uid bytes buf) = drop (length bytes) buf.
Proof.
  unfold write_uid.
  destruct (Nat.le_gt_cases (length bytes) (length buf)) as [Hle | Hgt].
  - assert (E : take (length buf) (bytes ++ drop (length bytes) buf)
                = bytes ++ drop (length bytes) buf).
    { apply take_ge. rewrite length_app, length_drop. lia. }
    rewrite E. split; [| split].
    + rewrite length_app, length_drop. lia.
    + rewrite take_app_length. symmetry. apply take_ge. exact Hle.
    + apply drop_app_length.
  - assert (E : take (length buf) (bytes ++ drop (length bytes) buf)
                = take (length buf) bytes).
    { apply take_app_le. lia. }
    rewrite E. split; [| split].
    + rewrite length_take. lia.
    + apply take_ge. rewrite length_take. lia.
    + rewrite !drop_ge; [reflexivity | lia | rewrite length_take; lia].
Qed.

(** C7. The calls of the card-sensor task are, iteration after iteration:
    when the observed state is Idle, one poll with the 50 ms timeout,
    followed on a detection by the CardDetected notification and then the
    300 ms debounce delay (so before the poll of any later iteration), or on
    a miss by a 40 ms delay; when the observed state is not Idle, an 80 ms
    delay and nothing else, so no poll and no notification.  On a detection
    the identifier is stored in the first bytes of the buffer (as far as the
    buffer goes), the bytes behind it are left as they were, and its length
    is stored. *)
Theorem nfc_polls_only_when_idle (n : NfcWorld)
    (ins : list (ReaderState * option (list Z))) :
  nfc_out (TaskNFC_run hz n ins) =
    nfc_out n ++ concat (List.map (fun i => nfc_events hz (fst i) (snd i)) ins) /\
  (forall observed tag,
     nfc_events hz observed tag =
       if decide (observed = STATE_IDLE) then
         EvPoll 50 ::
           match tag with
           | Some _ => [EvNotify taskLedHandle EVT_CARD_DETECTED;
                        EvDelay (msToTicks hz 300)]
           | None => [EvDelay (msToTicks hz 40)]
           end
       else [EvDelay (msToTicks hz 80)]) /\
  (forall bytes n0,
     take (length bytes) (uid (TaskNFC_iter hz STATE_IDLE (Some bytes) n0))
       = take (length (uid n0)) bytes /\
     drop (length bytes) (uid (TaskNFC_iter hz STATE_IDLE (Some bytes) n0))
       = drop (length bytes) (uid n0) /\
     uidLength (TaskNFC_iter hz STATE_IDLE (Some bytes) n0) =
       Z.of_nat (length bytes)).
Proof.
  split; [| split].
  - revert n. unfold TaskNFC_run.
    induction ins as [| i ins IH]; intros n; simpl.
    + rewrite app_nil_r. reflexivity.
    + rewrite IH, TaskNFC_iter_out, <- app_assoc. reflexivity.
  - intros observed tag. unfold nfc_events, TaskNFC_iter.
    destruct (decide (observed = STATE_IDLE)); [| reflexivity].
    destruct tag; reflexivity.
  - intros bytes n0.
    change (uid (TaskNFC_iter hz STATE_IDLE (Some bytes) n0))
      with (write_uid bytes (uid n0)).
    destruct (write_uid_spec bytes (uid n0)) as (_ & Ht & Hd).
    split; [exact Ht |]. split; [exact Hd | reflexivity].
Qed.

(** ** C3 *)

Lemma fadeIn_fold t l : forall a,
  running (fold_left (fun a v => audio_vTaskDelay t (audio_setVolume v a)) l a)
    = running a /\
  wasRunning (fold_left (fun a v => audio_vTaskDelay t (audio_setVolume v a)) l a)
    = wasRunning a /\
  audioNotify (fold_left (fun a v => audio_vTaskDelay t (audio_setVolume v a)) l a)
    = audioNotify a /\
  forall p, (forall v, p (EvSetVolume v) = false) ->
            (forall d, p (EvDelay d) = false) ->
    count p (audio_out
               (fold_left (fun a v => audio_vTaskDelay t (audio_setVolume v a)) l a))
      = count p (audio_out a).
Proof.
  induction l as [| v l IH]; intros a; simpl.
  - auto.
  - destruct (IH (audio_vTaskDelay t (audio_setVolume v a))) as (Hr & Hw & Hn & Hc).
    rewrite Hr, Hw, Hn. repeat split.
    intros p Hv Hd. rewrite Hc by assumption.
    simpl. rewrite !count_app. simpl. rewrite Hv, Hd. lia.
Qed.

Lemma fadeIn_spec a :
  running (fadeIn hz a) = running a /\
  wasRunning (fadeIn hz a) = wasRunning a /\
  audioNotify (fadeIn hz a) = audioNotify a /\
  count is_done (audio_out (fadeIn hz a)) = count is_done (audio_out a) /\
  count is_connect (audio_out (fadeIn hz a)) = count is_connect (audio_out a).
Proof.
  unfold fadeIn.
  destruct (fadeIn_fold (pdMS_TO_TICKS hz 5) (seqZ 0 (targetVol + 1)) a)
    as (Hr & Hw & Hn & Hc).
  repeat split; try assumption; apply Hc; reflexivity.
Qed.

Ltac peel_delay :=
  change (audio_out (audio_vTaskDelay ?t ?x)) with (audio_out x ++ [EvDelay t]);
  change (running (audio_vTaskDelay ?t ?x)) with (running x);
  change (wasRunning (audio_vTaskDelay ?t ?x)) with (wasRunning x).

(** The body of the play-request branch: one [connecttoFS]; PlaybackDone at
    once if and only if the decoder did not start. *)
Lemma handlePlayRequest_spec started a :
  running (handlePlayRequest hz started a) = started /\
  wasRunning (handlePlayRequest hz started a) = wasRunning a /\
  count is_connect (audio_out (handlePlayRequest hz started a)) =
    S (count is_connect (audio_out a)) /\
  count is_done (audio_out (handlePlayRequest hz started a)) =
    (count is_done (audio_out a) + b2n (negb started))%nat.
Proof.
  unfold handlePlayRequest. cbv zeta.
  change (running (audio_vTaskDelay ?t (audio_connecttoFS started ?x)))
    with started.
  destruct started; simpl negb; cbv iota.
  - destruct (fadeIn_spec
                (audio_vTaskDelay (pdMS_TO_TICKS hz 20)
                   (audio_connecttoFS true
                      (audio_vTaskDelay (pdMS_TO_TICKS hz 10)
                         (audio_setVolume 0 a)))))
      as (Hr & Hw & Hn & Hd & Hc).
    rewrite Hr, Hw, Hd, Hc. simpl.
    rewrite !count_app. simpl. repeat split; lia.
  - simpl. rewrite !count_app. simpl. repeat split; lia.
Qed.

(** The end-of-playback block: PlaybackDone exactly on the edge from running
    to not running. *)
Lemma detectEnd_spec a :
  running (detectEnd a) = running a /\
  wasRunning (detectEnd a) = running a /\
  count is_connect (audio_out (detectEnd a)) = count is_connect (audio_out a) /\
  count is_done (audio_out (detectEnd a)) =
    (count is_done (audio_out a) + b2n (wasRunning a && negb (running a)))%nat.
Proof.
  unfold detectEnd. cbv zeta.
  destruct (wasRunning a && negb (running a)).
  - split; [reflexivity |]. split; [reflexivity |].
    change (audio_out (set_wasRunning ?r (audio_emit ?e ?x)))
      with (audio_out x ++ [e]).
    rewrite !count_app. simpl. split; lia.
  - split; [reflexivity |]. split; [reflexivity |].
    simpl. split; lia.
Qed.





(** * Further properties of the FreeRTOS variant *)

(** ** The state is never Error once the task runs *)

Lemma sdOk_at_switch w : sdOk (at_switch w) = sdOk w.
Proof. unfold at_switch. rewrite sdOk_handleNotifications. reflexivity. Qed.

Lemma out_at_switch w : out (at_switch w) = out w.
Proof. unfold at_switch. rewrite out_handleNotifications. reflexivity. Qed.

Lemma state_TaskLEDState_iter_cases w :
  state (TaskLEDState_iter hz w) =
    match state (at_switch w) with
    | STATE_CARD_DETECTED =>
        if elapsedMs hz (at_switch w) <=? RAMP_MS then STATE_CARD_DETECTED
        else if sdOk w then STATE_SUCCESS else STATE_IDLE
    | s => s
    end.
Proof.
  rewrite state_TaskLEDState_iter. fold (at_switch w).
  rewrite state_renderState.
  rewrite sdOk_at_switch. reflexivity.
Qed.

Lemma state_at_switch w :
  state (at_switch w) =
    if has_bit (ledNotify w) EVT_AUDIO_DONE then STATE_IDLE
    else if has_bit (ledNotify w) EVT_CARD_DETECTED then STATE_CARD_DETECTED
    else state w.
Proof. unfold at_switch. rewrite state_handleNotifications. reflexivity. Qed.

Lemma not_error_step w i :
  state w <> STATE_ERROR -> state (step hz w i) <> STATE_ERROR.
Proof.
  intros Hne. destruct i as [bits | ticks |]; [exact Hne | exact Hne |].
  unfold step. rewrite state_TaskLEDState_iter_cases, state_at_switch.
  destruct (has_bit (ledNotify w) EVT_AUDIO_DONE); [discriminate |].
  destruct (has_bit (ledNotify w) EVT_CARD_DETECTED).
  - destruct (_ <=? _); [discriminate |]. destruct (sdOk w); discriminate.
  - destruct (state w) eqn:Hs; try discriminate; try congruence.
    destruct (_ <=? _); [discriminate |]. destruct (sdOk w); discriminate.
Qed.

(** X1. In the FreeRTOS variant the state is never Error in any execution
    from boot, whether or not the reader was found: [errorState] is only
    called by [setup], and [TaskLEDState] starts with
    [changeState(STATE_IDLE)]. *)
Theorem never_error_after_boot (sdMounted : bool) (version t0 : Z)
    (ins : list Input) :
  state (reached hz sdMounted version t0 ins) <> STATE_ERROR.
Proof.
  unfold reached, run.
  assert (H0 : state (boot sdMounted version t0) <> STATE_ERROR) by discriminate.
  revert H0. generalize (boot sdMounted version t0).
  induction ins as [| i ins IH]; intros w Hne; simpl; [exact Hne |].
  apply IH, not_error_step, Hne.
Qed.

(** ** C1 *)

Lemma not_error_run ins : forall w,
  state w <> STATE_ERROR -> state (run hz w ins) <> STATE_ERROR.
Proof.
  unfold run.
  induction ins as [| i ins IH]; intros w Hne; simpl; [exact Hne |].
  apply IH, not_error_step, Hne.
Qed.

(** C1 (the code at the failing input). Boot with the reader absent
    ([nfc.getFirmwareVersion()] returns 0): [setup] enters Error and shows
    the red frame, with no flag pending; the first statement of
    [TaskLEDState], an unconditional [changeState(STATE_IDLE)], then leaves
    Error without any flag, tick or reset, and no later execution is in
    Error again.  In the single-loop variant [errorState] enters Error and
    the last statement of [setup] leaves it in the same way. *)
Theorem error_overwritten_at_task_start (sdMounted : bool) (t0 : Z)
    (b : Basic.World) (ins : list Input) :
  state (setup sdMounted 0 (initial_world t0)) = STATE_ERROR /\
  strip (setup sdMounted 0 (initial_world t0)) =
    (MAX_BRIGHTNESS, replicate (Z.to_nat NUM_LEDS) CRGB_Red) /\
  ledNotify (setup sdMounted 0 (initial_world t0)) = 0 /\
  state (TaskLEDState_entry (setup sdMounted 0 (initial_world t0)))
    = STATE_IDLE /\
  state (reached hz sdMounted 0 t0 ins) <> STATE_ERROR /\
  Basic.state (Basic.errorState b) = STATE_ERROR /\
  Basic.state (Basic.setup 0 b) = STATE_IDLE.
Proof.
  split; [reflexivity |]. split; [reflexivity |]. split; [reflexivity |].
  split; [reflexivity |]. split; [| split; reflexivity].
  unfold reached. apply not_error_run. discriminate.
Qed.

(** ** What one iteration of [TaskLEDState] sends and how long it blocks *)

Lemma out_TaskLEDState_iter w :
  out (TaskLEDState_iter hz w) =
    out w ++
      match state (at_switch w) with
      | STATE_CARD_DETECTED =>
          if elapsedMs hz (at_switch w) <=? RAMP_MS then []
          else [if sdOk w then EvNotify taskAudioHandle EVT_PLAY_SUCCESS
                else EvDelay (msToTicks hz 250)]
      | _ => []
      end ++ [EvDelay (msToTicks hz 10)].
Proof.
  rewrite TaskLEDState_iter_unfold. fold (at_switch w).
  change (out (vTaskDelay ?t ?x)) with (out x ++ [EvDelay t]).
  rewrite out_renderState.
  rewrite sdOk_at_switch, out_at_switch, <- app_assoc. reflexivity.
Qed.

Lemma tickCount_handleNotifications notif w :
  tickCount (handleNotifications notif w) = tickCount w.
Proof.
  unfold handleNotifications.
  destruct (has_bit notif EVT_CARD_DETECTED), (has_bit notif EVT_AUDIO_DONE);
    reflexivity.
Qed.

Lemma tickCount_runChaserStep w : tickCount (runChaserStep hz w) = tickCount w.
Proof.
  unfold runChaserStep.
  destruct (_ <=? _); [| reflexivity].
  match goal with |- context [if ?c then _ else _] => destruct c end;
    unfold store_led; destruct (_ && _); reflexivity.
Qed.

Lemma tickCount_renderState w :
  tickCount (renderState hz w) =
    match state w with
    | STATE_CARD_DETECTED =>
        if (elapsedMs hz w <=? RAMP_MS) || sdOk w then tickCount w
        else wrap32 (tickCount w + msToTicks hz 250)
    | _ => tickCount w
    end.
Proof.
  unfold renderState. destruct (state w); try reflexivity.
  - apply tickCount_runChaserStep.
  - unfold runYellowRamp. destruct (_ <=? _); [reflexivity |].
    unfold transitionToSuccess.
    change (sdOk (setAllLeds CRGB_Green
                    (FastLED_setBrightness MAX_BRIGHTNESS
                       (FastLED_setBrightness MAX_BRIGHTNESS w))))
      with (sdOk w).
    destruct (sdOk w); reflexivity.
Qed.

(** X2. One iteration of the state-machine task sends at most one
    notification, the play request, and only when it ends the ramp with the
    storage mounted; it blocks for the 10 ms of its cadence, plus 250 ms in
    the one case where it ends the ramp without storage. *)
Theorem led_iteration_trace_and_duration (w : World) :
  out (TaskLEDState_iter hz w) =
    out w ++
      (if bool_decide (state (at_switch w) = STATE_CARD_DETECTED)
          && negb (elapsedMs hz (at_switch w) <=? RAMP_MS)
       then [if sdOk w then EvNotify taskAudioHandle EVT_PLAY_SUCCESS
             else EvDelay (msToTicks hz 250)]
       else [])
      ++ [EvDelay (msToTicks hz 10)] /\
  tickCount (TaskLEDState_iter hz w) =
    (if bool_decide (state (at_switch w) = STATE_CARD_DETECTED)
        && negb (elapsedMs hz (at_switch w) <=? RAMP_MS)
        && negb (sdOk w)
     then wrap32 (wrap32 (tickCount w + msToTicks hz 250) + msToTicks hz 10)
     else wrap32 (tickCount w + msToTicks hz 10)).
Proof.
  split.
  - rewrite out_TaskLEDState_iter.
    destruct (state (at_switch w)); simpl; try reflexivity.
    destruct (_ <=? _); reflexivity.
  - rewrite TaskLEDState_iter_unfold. fold (at_switch w).
    change (tickCount (vTaskDelay ?t ?x)) with (wrap32 (tickCount x + t)).
    rewrite tickCount_renderState.
    assert (Ht : tickCount (at_switch w) = tickCount w).
    { unfold at_switch. rewrite tickCount_handleNotifications. reflexivity. }
    rewrite Ht, sdOk_at_switch.
    destruct (state (at_switch w)); simpl; try reflexivity.
    destruct (_ <=? _); simpl; [reflexivity |].
    destruct (sdOk w); reflexivity.
Qed.

(** ** Success is only entered with a play request sent *)

Lemma play_sent_step w i :
  (state w = STATE_SUCCESS -> (0 < count is_play_request (out w))%nat) ->
  state (step hz w i) = STATE_SUCCESS ->
  (0 < count is_play_request (out (step hz w i)))%nat.
Proof.
  intros Inv. destruct i as [bits | ticks |]; [exact Inv | exact Inv |].
  unfold step. rewrite state_TaskLEDState_iter_cases, out_TaskLEDState_iter.
  rewrite !count_app. rewrite state_at_switch.
  destruct (has_bit (ledNotify w) EVT_AUDIO_DONE); [discriminate |].
  destruct (has_bit (ledNotify w) EVT_CARD_DETECTED).
  - destruct (_ <=? _); [discriminate |].
    destruct (sdOk w); [| discriminate]. intros _. simpl. lia.
  - destruct (state w) eqn:Hs; try discriminate.
    + destruct (_ <=? _); [discriminate |].
      destruct (sdOk w); [| discriminate]. intros _. simpl. lia.
    + intros _. specialize (Inv eq_refl). lia.
Qed.

Lemma elapsedMs_at_switch_card w :
  has_bit (ledNotify w) EVT_AUDIO_DONE = false ->
  has_bit (ledNotify w) EVT_CARD_DETECTED = true ->
  elapsedMs hz (at_switch w) = 0.
Proof.
  intros Hd Hc. unfold at_switch, handleNotifications. rewrite Hc, Hd.
  apply elapsedMs_changeState.
Qed.

Lemma play_requests_entry_step w i :
  count is_play_request (out (step hz w i)) =
    (count is_play_request (out w)
     + (if bool_decide (state w <> STATE_SUCCESS /\
                        state (step hz w i) = STATE_SUCCESS)
        then 1 else 0))%nat.
Proof.
  destruct i as [bits | ticks |].
  - simpl. rewrite bool_decide_eq_false_2 by tauto. lia.
  - simpl. rewrite bool_decide_eq_false_2 by tauto. lia.
  - unfold step. rewrite state_TaskLEDState_iter_cases, out_TaskLEDState_iter.
    rewrite !count_app. rewrite state_at_switch.
    destruct (has_bit (ledNotify w) EVT_AUDIO_DONE) eqn:Hd.
    { rewrite bool_decide_eq_false_2 by (intros [_ H]; discriminate H).
      simpl. lia. }
    destruct (has_bit (ledNotify w) EVT_CARD_DETECTED) eqn:Hc.
    { rewrite elapsedMs_at_switch_card by assumption.
      change (0 <=? RAMP_MS) with true. cbv iota.
      rewrite bool_decide_eq_false_2 by (intros [_ H]; discriminate H).
      simpl. lia. }
    destruct (state w) eqn:Hs.
    + rewrite bool_decide_eq_false_2 by (intros [_ H]; discriminate H).
      simpl. lia.
    + destruct (_ <=? _).
      * rewrite bool_decide_eq_false_2 by (intros [_ H]; discriminate H).
        simpl. lia.
      * destruct (sdOk w).
        -- rewrite bool_decide_eq_true_2 by (split; [discriminate | reflexivity]).
           simpl. lia.
        -- rewrite bool_decide_eq_false_2 by (intros [_ H]; discriminate H).
           simpl. lia.
    + rewrite bool_decide_eq_false_2 by (intros [H _]; apply H; reflexivity).
      simpl. lia.
    + rewrite bool_decide_eq_false_2 by (intros [_ H]; discriminate H).
      simpl. lia.
Qed.

Lemma play_requests_entries ins : forall w,
  count is_play_request (out (run hz w ins)) =
    (count is_play_request (out w) + success_entries hz w ins)%nat.
Proof.
  unfold run.
  induction ins as [| i ins IH]; intros w; simpl; [lia |].
  rewrite IH, play_requests_entry_step. lia.
Qed.

(** X3. Along every execution of the state-machine task, from any world, the
    number of play requests sent equals the number of iterations that moved
    the machine into Success: every entry into Success sends its own play
    request and no play request is sent otherwise.  So in every execution
    from boot, whenever the state is Success a play request has been sent:
    the machine never waits in Success for a PlaybackDone that nobody was
    asked to produce. *)
Theorem success_has_play_request (sdMounted : bool) (version t0 : Z)
    (ins : list Input) (w : World) :
  count is_play_request (out (run hz w ins)) =
    (count is_play_request (out w) + success_entries hz w ins)%nat /\
  (state (reached hz sdMounted version t0 ins) = STATE_SUCCESS ->
   (0 < count is_play_request (out (reached hz sdMounted version t0 ins)))%nat).
Proof.
  split; [apply play_requests_entries |].
  unfold reached, run.
  assert (H0 : state (boot sdMounted version t0) = STATE_SUCCESS ->
               (0 < count is_play_request (out (boot sdMounted version t0)))%nat)
    by discriminate.
  revert H0. generalize (boot sdMounted version t0).
  induction ins as [| i ins IH]; intros w0 Inv; simpl; [exact Inv |].
  apply IH. apply play_sent_step. exact Inv.
Qed.

(** ** Brightness stays within the configured bounds *)

Lemma bright_ok_resetToIdle w : bright_ok (resetToIdle w).
Proof.
  unfold bright_ok.
  change (brightness (resetToIdle w)) with 65.
  change (fst (strip (resetToIdle w))) with 65.
  unfold MIN_BRIGHTNESS, MAX_BRIGHTNESS. lia.
Qed.

Lemma bright_ok_handleNotifications notif w :
  bright_ok w -> bright_ok (handleNotifications notif w).
Proof.
  intros H. unfold handleNotifications.
  destruct (has_bit notif EVT_AUDIO_DONE); [apply bright_ok_resetToIdle |].
  destruct (has_bit notif EVT_CARD_DETECTED); exact H.
Qed.

Lemma bright_runChaserStep w :
  brightness (runChaserStep hz w) = brightness w /\
  fst (strip (runChaserStep hz w)) =
    if chaser_due hz w then brightness w else fst (strip w).
Proof.
  unfold runChaserStep, chaser_due.
  destruct (_ <=? _); [| split; reflexivity].
  match goal with |- context [if ?c then _ else _] => destruct c end;
    unfold store_led; destruct (_ && _); split; reflexivity.
Qed.

Lemma strip_FastLED_show x : strip (FastLED_show x) = (brightness x, leds x).
Proof. reflexivity. Qed.

Lemma brightness_FastLED_show x : brightness (FastLED_show x) = brightness x.
Proof. reflexivity. Qed.

Lemma strip_runYellowRamp w :
  fst (strip (runYellowRamp hz w)) = brightness (runYellowRamp hz w).
Proof.
  destruct (elapsedMs hz w <=? RAMP_MS) eqn:E.
  - rewrite runYellowRamp_in_window by exact E.
    rewrite strip_FastLED_show, brightness_FastLED_show. reflexivity.
  - rewrite runYellowRamp_after_window by exact E.
    unfold transitionToSuccess. destruct (negb _); reflexivity.
Qed.

Lemma bright_ok_runYellowRamp w : bright_ok (runYellowRamp hz w).
Proof.
  unfold bright_ok. rewrite strip_runYellowRamp, brightness_runYellowRamp.
  pose proof (elapsedMs_range w) as Hr.
  unfold RAMP_MS, MIN_BRIGHTNESS, MAX_BRIGHTNESS.
  destruct (Z.leb_spec (elapsedMs hz w) 2000) as [Hle | Hgt]; [| lia].
  assert (0 <= elapsedMs hz w * (65 - 2) / 2000 <= 63).
  { split; [apply Z.div_pos; lia | apply Z.div_le_upper_bound; lia]. }
  lia.
Qed.

Lemma bright_ok_step w i : bright_ok w -> bright_ok (step hz w i).
Proof.
  intros H. destruct i as [bits | ticks |]; [exact H | exact H |].
  unfold step. rewrite TaskLEDState_iter_unfold.
  assert (H1 : bright_ok (handleNotifications (ledNotify w) (set_ledNotify 0 w))).
  { apply bright_ok_handleNotifications. exact H. }
  revert H1. generalize (handleNotifications (ledNotify w) (set_ledNotify 0 w)).
  intros w1 H1.
  change (bright_ok (renderState hz w1)).
  unfold renderState. destruct (state w1); try exact H1.
  - destruct (bright_runChaserStep w1) as [Hb Hs].
    unfold bright_ok. rewrite Hb, Hs.
    destruct H1 as [H1 H2]. destruct (chaser_due hz w1); tauto.
  - apply bright_ok_runYellowRamp.
Qed.

(** X4. In every execution from boot the strip brightness, and the brightness
    of every frame that was shown, lies between MIN_BRIGHTNESS and
    MAX_BRIGHTNESS, whatever the flags and the timing. *)
Theorem brightness_within_configured_bounds (sdMounted : bool) (version t0 : Z)
    (ins : list Input) :
  MIN_BRIGHTNESS <= brightness (reached hz sdMounted version t0 ins)
    <= MAX_BRIGHTNESS /\
  MIN_BRIGHTNESS <= fst (strip (reached hz sdMounted version t0 ins))
    <= MAX_BRIGHTNESS.
Proof.
  change (bright_ok (reached hz sdMounted version t0 ins)).
  unfold reached, run.
  assert (H0 : bright_ok (boot sdMounted version t0)).
  { unfold boot, setup, bright_ok.
    destruct (version =? 0);
      match goal with
      | |- _ <= brightness ?x <= _ /\ _ <= fst (strip ?x) <= _ =>
          change (brightness x) with 65; change (fst (strip x)) with 65
      end;
      unfold MIN_BRIGHTNESS, MAX_BRIGHTNESS; lia. }
  revert H0. generalize (boot sdMounted version t0).
  induction ins as [| i ins IH]; intros w H; simpl; [exact H |].
  apply IH, bright_ok_step, H.
Qed.

(** ** The frame of the chaser *)

Lemma strip_runChaserStep w :
  chaser_due hz w = true ->
  0 <= chaserIndex w < NUM_LEDS ->
  strip (runChaserStep hz w) =
    (brightness w,
     <[Z.to_nat (chaserIndex w) := CHASER_COLOR]>
       (replicate (Z.to_nat NUM_LEDS) dimColor)).
Proof.
  intros Hdue Hi. unfold chaser_due in Hdue. unfold runChaserStep.
  rewrite Hdue. cbv zeta. unfold store_led.
  change (chaserIndex (fill_solid ?c w)) with (chaserIndex w).
  assert (Hb : (0 <=? chaserIndex w) && (chaserIndex w <? NUM_LEDS) = true).
  { apply andb_true_iff. split; [apply Z.leb_le | apply Z.ltb_lt]; lia. }
  rewrite Hb.
  match goal with |- context [if ?c then _ else _] => destruct c end;
    reflexivity.
Qed.

(** X5. A chaser step that is due, on a chaser position inside the strip,
    shows a frame of NUM_LEDS pixels at the current brightness in which the
    position [chaserIndex] (the value before the step) has the full chaser
    colour and every other position the dimmed colour, which is different. *)
Theorem chaser_frame (w : World) :
  chaser_ok w -> chaser_due hz w = true ->
  fst (strip (runChaserStep hz w)) = brightness w /\
  length (snd (strip (runChaserStep hz w))) = Z.to_nat NUM_LEDS /\
  (forall k : nat, (k < Z.to_nat NUM_LEDS)%nat ->
     snd (strip (runChaserStep hz w)) !! k =
       Some (if bool_decide (Z.of_nat k = chaserIndex w)
             then CHASER_COLOR else dimColor)) /\
  dimColor <> CHASER_COLOR.
Proof.
  intros (Hi & _) Hdue.
  rewrite strip_runChaserStep by (unfold NUM_LEDS in *; lia || exact Hdue).
  cbn [fst snd].
  split; [reflexivity |]. split.
  - rewrite length_insert, length_replicate. reflexivity.
  - split; [| discriminate].
    intros k Hk. case_bool_decide as Hkk.
    + replace (Z.to_nat (chaserIndex w)) with k by lia.
      apply list_lookup_insert_eq. rewrite length_replicate. exact Hk.
    + rewrite list_lookup_insert_ne by lia.
      apply lookup_replicate_2. exact Hk.
Qed.

(** ** The chaser sweeps the whole strip and is periodic *)

Lemma wrap32_add_sub t d : wrap32 (wrap32 (t + d) - t) = wrap32 d.
Proof.
  unfold wrap32. rewrite Zminus_mod_idemp_l. f_equal. lia.
Qed.

Lemma wrap32_small x : 0 <= x < 2 ^ 32 -> wrap32 x = x.
Proof. intros H. unfold wrap32. apply Z.mod_small. exact H. Qed.

Lemma msToTicks_range ms : 0 <= msToTicks hz ms < 2 ^ 32.
Proof. unfold msToTicks, pdMS_TO_TICKS, wrap32. apply Z.mod_pos_bound. lia. Qed.

Lemma chaser_tick_pair w :
  (chaserIndex (chaser_tick hz w), chaserDir (chaser_tick hz w)) =
    chaser_update (chaserIndex w, chaserDir w).
Proof.
  unfold chaser_tick. rewrite chaser_runChaserStep.
  unfold chaser_due, xTaskGetTickCount.
  change (tickCount (set_tickCount ?t w)) with t.
  change (lastStepTick (set_tickCount ?t w)) with (lastStepTick w).
  rewrite wrap32_add_sub, wrap32_small by apply msToTicks_range.
  rewrite Z.leb_refl. reflexivity.
Qed.

Lemma chaser_tick_iter n : forall w,
  (chaserIndex (Nat.iter n (chaser_tick hz) w),
   chaserDir (Nat.iter n (chaser_tick hz) w)) =
    Nat.iter n chaser_update (chaserIndex w, chaserDir w).
Proof.
  induction n as [| n IH]; intros w; [reflexivity |].
  simpl. rewrite chaser_tick_pair, IH. reflexivity.
Qed.

Lemma chaser_ok_cases w :
  chaser_ok w ->
  In (chaserIndex w, chaserDir w)
    [(0, 1); (1, 1); (2, 1); (3, 1); (4, 1); (5, 1); (6, 1);
     (7, -1); (6, -1); (5, -1); (4, -1); (3, -1); (2, -1); (1, -1)].
Proof.
  unfold chaser_ok, NUM_LEDS. intros (Hi & Hd & H0 & HN).
  assert (Hc : chaserIndex w = 0 \/ chaserIndex w = 1 \/ chaserIndex w = 2 \/
               chaserIndex w = 3 \/ chaserIndex w = 4 \/ chaserIndex w = 5 \/
               chaserIndex w = 6 \/ chaserIndex w = 7) by lia.
  destruct Hd as [Hd | Hd]; rewrite Hd in *;
    repeat (destruct Hc as [Hc | Hc]; [rewrite Hc in *; simpl; try lia; tauto |]);
    rewrite Hc in *; simpl; try lia; tauto.
Qed.

(** X6. From any reachable chaser position, taking every chaser step as soon
    as it is due, the chaser visits every position of the strip, the last
    one included, within 2 (NUM_LEDS - 1) = 14 steps, and after exactly 14
    steps index and direction are back where they were. *)
Theorem chaser_sweeps_and_is_periodic (w : World) :
  chaser_ok w ->
  chaserIndex (Nat.iter 14 (chaser_tick hz) w) = chaserIndex w /\
  chaserDir (Nat.iter 14 (chaser_tick hz) w) = chaserDir w /\
  (forall k, 0 <= k <= NUM_LEDS - 1 ->
     exists n, (n < 14)%nat /\ chaserIndex (Nat.iter n (chaser_tick hz) w) = k).
Proof.
  intros Hok. apply chaser_ok_cases in Hok.
  assert (Hper : Nat.iter 14 chaser_update (chaserIndex w, chaserDir w)
                 = (chaserIndex w, chaserDir w)).
  { repeat (destruct Hok as [Hok | Hok];
            [rewrite <- Hok; vm_compute; reflexivity |]).
    destruct Hok. }
  pose proof (chaser_tick_iter 14 w) as E. rewrite Hper in E.
  injection E as Ei Ed. split; [exact Ei |]. split; [exact Ed |].
  intros k Hk. unfold NUM_LEDS in Hk.
  assert (Hvis : exists n, (n < 14)%nat /\
                   fst (Nat.iter n chaser_update (chaserIndex w, chaserDir w)) = k).
  { assert (Hc : k = 0 \/ k = 1 \/ k = 2 \/ k = 3 \/ k = 4 \/ k = 5 \/
                 k = 6 \/ k = 7) by lia.
    assert (Hall : forall p,
              In p [(0, 1); (1, 1); (2, 1); (3, 1); (4, 1); (5, 1); (6, 1);
                    (7, -1); (6, -1); (5, -1); (4, -1); (3, -1); (2, -1); (1, -1)] ->
              forallb
                (fun k => existsb
                            (fun n => fst (Nat.iter n chaser_update p) =? k)
                            (seq 0 14))
                [0; 1; 2; 3; 4; 5; 6; 7] = true).
    { intros p Hp.
      repeat (destruct Hp as [Hp | Hp]; [rewrite <- Hp; vm_compute; reflexivity |]).
      destruct Hp. }
    specialize (Hall _ Hok). rewrite forallb_forall in Hall.
    assert (Hin : In k [0; 1; 2; 3; 4; 5; 6; 7]).
    { simpl. lia. }
    specialize (Hall k Hin). apply existsb_exists in Hall.
    destruct Hall as (n & Hn & Hkn). exists n. split.
    - apply in_seq in Hn. lia.
    - apply Z.eqb_eq. exact Hkn. }
  destruct Hvis as (n & Hn & Hkn). exists n. split; [exact Hn |].
  pose proof (chaser_tick_iter n w) as En. rewrite <- En in Hkn. exact Hkn.
Qed.

(** ** Timing across an overflow of the tick counter *)

Lemma lastStepTick_runChaserStep w :
  chaser_due hz w = true ->
  lastStepTick (runChaserStep hz w) = tickCount w.
Proof.
  intros Hdue. unfold chaser_due in Hdue. unfold runChaserStep.
  rewrite Hdue. cbv zeta.
  match goal with |- context [if ?c then _ else _] => destruct c end;
    unfold store_led; destruct (_ && _); reflexivity.
Qed.

(** X7. The two time measurements of the state-machine task are differences
    of tick counts modulo 2^32, so they survive an overflow of the tick
    counter: [d] ticks (d < 2^32) after a state change the ramp sees the
    [uint32_t] value of d * portTICK_PERIOD_MS, which is
    d * portTICK_PERIOD_MS itself whenever that product is below 2^32, and
    [d] ticks after a chaser step the next step is due exactly when d has
    reached the chaser interval, whatever the value of the counter. *)
Theorem timing_survives_tick_overflow (w : World) (s : ReaderState) (d : Z) :
  0 <= d < 2 ^ 32 ->
  elapsedMs hz (later d (changeState s w)) = wrap32 (d * portTICK_PERIOD_MS hz) /\
  (d * portTICK_PERIOD_MS hz < 2 ^ 32 ->
   elapsedMs hz (later d (changeState s w)) = d * portTICK_PERIOD_MS hz) /\
  (chaser_due hz w = true ->
   chaser_due hz (later d (runChaserStep hz w)) =
     (msToTicks hz CHASER_INTERVAL_MS <=? d)).
Proof.
  intros Hd.
  assert (He : elapsedMs hz (later d (changeState s w))
               = wrap32 (d * portTICK_PERIOD_MS hz)).
  { unfold elapsedMs, later, changeState, xTaskGetTickCount. simpl.
    rewrite wrap32_add_sub, (wrap32_small d) by exact Hd. reflexivity. }
  split; [exact He |]. split.
  - intros Hp. rewrite He. apply wrap32_small.
    assert (0 <= portTICK_PERIOD_MS hz)
      by (unfold portTICK_PERIOD_MS, wrap32; apply Z.mod_pos_bound; lia).
    split; [apply Z.mul_nonneg_nonneg; lia | exact Hp].
  - intros Hdue. unfold chaser_due, later, xTaskGetTickCount.
    change (tickCount (set_tickCount ?t ?x)) with t.
    change (lastStepTick (set_tickCount ?t ?x)) with (lastStepTick x).
    rewrite lastStepTick_runChaserStep by exact Hdue.
    rewrite tickCount_runChaserStep.
    rewrite wrap32_add_sub, (wrap32_small d) by exact Hd. reflexivity.
Qed.

(** * Further properties of the audio task *)

(** One step of any run keeps [wasRunning = running] and never lets the flags
    raised run ahead of the requests drained. *)
Lemma audio_step_bound a i :
  wasRunning a = running a ->
  wasRunning (audio_step hz a i) = running (audio_step hz a i) /\
  (count is_done (audio_out (audio_step hz a i))
   + b2n (running (audio_step hz a i))
   + count is_connect (audio_out a)
   <= count is_done (audio_out a) + b2n (running a)
      + count is_connect (audio_out (audio_step hz a i)))%nat.
Proof.
  intros Hw. destruct i as [bits | ends started].
  - simpl. split; [exact Hw | lia].
  - unfold audio_step, TaskAudio_iter. cbv zeta.
    destruct (running a) eqn:Er.
    + change (audioNotify (audio_loop ends a)) with (audioNotify a).
      destruct (has_bit (audioNotify a) EVT_PLAY_SUCCESS).
      * destruct (detectEnd_spec
                    (handlePlayRequest hz started
                       (set_audioNotify 0 (audio_loop ends a))))
          as (Hr & Hw' & Hc & Hd).
        destruct (handlePlayRequest_spec started
                    (set_audioNotify 0 (audio_loop ends a)))
          as (Hr2 & Hw2 & Hc2 & Hd2).
        peel_delay. rewrite !count_app, Hr, Hw', Hc, Hd, Hr2, Hw2, Hc2, Hd2.
        change (wasRunning (set_audioNotify 0 (audio_loop ends a)))
          with (wasRunning a).
        change (audio_out (set_audioNotify 0 (audio_loop ends a)))
          with (audio_out a ++ [EvAudioLoop]).
        rewrite !count_app, Hw.
        destruct started; simpl; split; try reflexivity; lia.
      * destruct (detectEnd_spec (set_audioNotify 0 (audio_loop ends a)))
          as (Hr & Hw' & Hc & Hd).
        peel_delay. rewrite !count_app, Hr, Hw', Hc, Hd.
        change (running (set_audioNotify 0 (audio_loop ends a)))
          with (running a && negb ends).
        change (wasRunning (set_audioNotify 0 (audio_loop ends a)))
          with (wasRunning a).
        change (audio_out (set_audioNotify 0 (audio_loop ends a)))
          with (audio_out a ++ [EvAudioLoop]).
        rewrite !count_app, Hw, Er.
        destruct ends; simpl; split; try reflexivity; lia.
    + destruct (has_bit (audioNotify a) EVT_PLAY_SUCCESS).
      * destruct (detectEnd_spec (handlePlayRequest hz started (set_audioNotify 0 a)))
          as (Hr & Hw' & Hc & Hd).
        destruct (handlePlayRequest_spec started (set_audioNotify 0 a))
          as (Hr2 & Hw2 & Hc2 & Hd2).
        peel_delay. rewrite !count_app, Hr, Hw', Hc, Hd, Hr2, Hw2, Hc2, Hd2.
        change (wasRunning (set_audioNotify 0 a)) with (wasRunning a).
        change (audio_out (set_audioNotify 0 a)) with (audio_out a).
        rewrite Hw.
        destruct started; simpl; split; try reflexivity; lia.
      * destruct (detectEnd_spec (set_audioNotify 0 a)) as (Hr & Hw' & Hc & Hd).
        peel_delay. rewrite !count_app, Hr, Hw', Hc, Hd.
        change (running (set_audioNotify 0 a)) with (running a).
        change (wasRunning (set_audioNotify 0 a)) with (wasRunning a).
        change (audio_out (set_audioNotify 0 a)) with (audio_out a).
        rewrite Hw, ?Er. simpl. split; [reflexivity | lia].
Qed.

Lemma audio_run_bound ins : forall a,
  wasRunning a = running a ->
  wasRunning (audio_run hz a ins) = running (audio_run hz a ins) /\
  (count is_done (audio_out (audio_run hz a ins))
   + b2n (running (audio_run hz a ins))
   + count is_connect (audio_out a)
   <= count is_done (audio_out a) + b2n (running a)
      + count is_connect (audio_out (audio_run hz a ins)))%nat.
Proof.
  unfold audio_run.
  induction ins as [| i ins IH]; intros a Hw.
  - simpl. split; [exact Hw | lia].
  - destruct (audio_step_bound a i Hw) as [Hw' Hb].
    destruct (IH _ Hw') as [Hw'' Hb'']. simpl fold_left.
    split; [exact Hw'' | lia].
Qed.

(** X8. In every execution of the audio task from boot, whatever the order of
    requests and of decoder events, the number of PlaybackDone flags raised
    plus one if a playback is running never exceeds the number of play
    requests drained; and between iterations the remembered running flag
    equals the decoder's. *)
Theorem playback_done_never_exceeds_requests (ins : list AudioInput) :
  (count is_done (audio_out (audio_run hz audio_boot ins))
   + b2n (running (audio_run hz audio_boot ins))
   <= count is_connect (audio_out (audio_run hz audio_boot ins)))%nat /\
  wasRunning (audio_run hz audio_boot ins) = running (audio_run hz audio_boot ins).
Proof.
  destruct (audio_run_bound ins audio_boot eq_refl) as [Hw Hb].
  split; [| exact Hw]. simpl in Hb. lia.
Qed.

(** ** Volume *)

Lemma volume_fadeIn a : volume (fadeIn hz a) = targetVol.
Proof. reflexivity. Qed.

Lemma volume_handlePlayRequest started a :
  volume (handlePlayRequest hz started a) = targetVol.
Proof.
  unfold handlePlayRequest. cbv zeta.
  change (running (audio_vTaskDelay ?t (audio_connecttoFS started ?x)))
    with started.
  destruct started; [apply volume_fadeIn | reflexivity].
Qed.

Lemma volume_TaskAudio_iter ends started a :
  volume (TaskAudio_iter hz ends started a) =
    if has_bit (audioNotify a) EVT_PLAY_SUCCESS then targetVol else volume a.
Proof.
  unfold TaskAudio_iter. cbv zeta.
  change (volume (audio_vTaskDelay ?t (detectEnd ?x))) with (volume (detectEnd x)).
  assert (Hde : forall x, volume (detectEnd x) = volume x).
  { intros x. unfold detectEnd. destruct (_ && _); reflexivity. }
  rewrite Hde.
  assert (Hn : audioNotify (if running a then audio_loop ends a else a)
               = audioNotify a) by (destruct (running a); reflexivity).
  rewrite Hn.
  destruct (has_bit (audioNotify a) EVT_PLAY_SUCCESS).
  - apply volume_handlePlayRequest.
  - destruct (running a); reflexivity.
Qed.

(** X9. An iteration of the audio task that drains a play request leaves the
    volume at the target level, whether the playback started (the fade-in
    ends at the target) or not (the volume is restored at once); other
    iterations leave the volume alone; so from boot the volume between
    iterations is always the target level. *)
Theorem volume_restored_to_target (ends started : bool) (a : AudioWorld)
    (ins : list AudioInput) :
  volume (TaskAudio_iter hz ends started a) =
    (if has_bit (audioNotify a) EVT_PLAY_SUCCESS then targetVol else volume a) /\
  volume (audio_run hz audio_boot ins) = targetVol.
Proof.
  split; [apply volume_TaskAudio_iter |].
  unfold audio_run.
  assert (H0 : volume audio_boot = targetVol) by reflexivity.
  revert H0. generalize audio_boot.
  induction ins as [| i ins IH]; intros a0 H0; simpl; [exact H0 |].
  apply IH. destruct i as [bits | e s]; [exact H0 |].
  unfold audio_step. rewrite volume_TaskAudio_iter.
  destruct (has_bit _ _); [reflexivity | exact H0].
Qed.

(** * Further properties of the card sensor *)




(** * Properties of the single-loop variant *)

Lemma basic_runChaserEffect_fields w :
  Basic.state (Basic.runChaserEffect w) = Basic.state w /\
  Basic.uid (Basic.runChaserEffect w) = Basic.uid w /\
  Basic.brightness (Basic.runChaserEffect w) = Basic.brightness w /\
  Basic.audioRunning (Basic.runChaserEffect w) = Basic.audioRunning w /\
  (Basic.chaserIndex (Basic.runChaserEffect w),
   Basic.chaserDir (Basic.runChaserEffect w)) =
    if basic_chaser_due w
    then chaser_update (Basic.chaserIndex w, Basic.chaserDir w)
    else (Basic.chaserIndex w, Basic.chaserDir w).
Proof.
  unfold Basic.runChaserEffect, basic_chaser_due, chaser_update.
  destruct (_ <=? _); [| repeat split].
  unfold Basic.store_led. destruct (_ && _); simpl;
    destruct (_ || _); repeat split.
Qed.

Lemma basic_state_yellowRamp started w :
  Basic.state (Basic.yellowRamp started w) =
    if basic_elapsed w <=? Basic.RAMP_MS then Basic.state w else STATE_SUCCESS.
Proof.
  unfold Basic.yellowRamp, basic_elapsed. destruct (_ <=? _); reflexivity.
Qed.

Lemma basic_state_loop ends tag started w :
  Basic.state (Basic.loop ends tag started w) =
    match Basic.state w with
    | STATE_IDLE =>
        match tag with Some _ => STATE_CARD_DETECTED | None => STATE_IDLE end
    | STATE_CARD_DETECTED =>
        if basic_elapsed w <=? Basic.RAMP_MS
        then STATE_CARD_DETECTED else STATE_SUCCESS
    | STATE_SUCCESS =>
        if Basic.audioRunning w && negb ends then STATE_SUCCESS else STATE_IDLE
    | STATE_ERROR => STATE_ERROR
    end.
Proof.
  unfold Basic.loop, basic_elapsed.
  destruct (Basic.audioRunning w) eqn:Ea; simpl;
    destruct (Basic.state w) eqn:Hst; try exact Hst.
  - destruct tag; simpl; [reflexivity |].
    rewrite (proj1 (basic_runChaserEffect_fields _)). exact Hst.
  - rewrite basic_state_yellowRamp. unfold basic_elapsed. simpl.
    destruct (_ <=? _); [exact Hst | reflexivity].
  - destruct ends; simpl; [reflexivity | exact Hst].
  - destruct tag; simpl; [reflexivity |].
    rewrite (proj1 (basic_runChaserEffect_fields _)). exact Hst.
  - rewrite basic_state_yellowRamp.
    destruct (_ <=? _); [exact Hst | reflexivity].
  - rewrite Ea. reflexivity.
Qed.

(** X11. The transition function of the single-loop variant: one call of
    [loop()] moves Idle to CardDetected exactly when the poll finds a tag
    (and then writes its identifier over the first bytes of the [uid]
    buffer, keeping the bytes behind it; no other state touches the buffer),
    CardDetected to Success exactly when more than RAMP_MS have elapsed,
    Success to Idle exactly when the decoder is not running after its pump,
    and leaves Error alone. *)
Theorem basic_transition_table (ends : bool) (tag : option (list Z))
    (started : bool) (w : Basic.World) :
  Basic.state (Basic.loop ends tag started w) =
    match Basic.state w with
    | STATE_IDLE =>
        match tag with Some _ => STATE_CARD_DETECTED | None => STATE_IDLE end
    | STATE_CARD_DETECTED =>
        if basic_elapsed w <=? Basic.RAMP_MS
        then STATE_CARD_DETECTED else STATE_SUCCESS
    | STATE_SUCCESS =>
        if Basic.audioRunning w && negb ends then STATE_SUCCESS else STATE_IDLE
    | STATE_ERROR => STATE_ERROR
    end /\
  Basic.uid (Basic.loop ends tag started w) =
    match Basic.state w, tag with
    | STATE_IDLE, Some bytes => write_uid bytes (Basic.uid w)
    | _, _ => Basic.uid w
    end.
Proof.
  unfold Basic.loop.
  set (w1 := if Basic.audioRunning w
             then Basic.set_audioRunning (Basic.audioRunning w && negb ends) w
             else w).
  assert (Hs : Basic.state w1 = Basic.state w)
    by (unfold w1; destruct (Basic.audioRunning w); reflexivity).
  assert (Hu : Basic.uid w1 = Basic.uid w)
    by (unfold w1; destruct (Basic.audioRunning w); reflexivity).
  assert (He : basic_elapsed w1 = basic_elapsed w)
    by (unfold w1; destruct (Basic.audioRunning w); reflexivity).
  assert (Ha : Basic.audioRunning w1 = Basic.audioRunning w && negb ends).
  { unfold w1. destruct (Basic.audioRunning w) eqn:E; [reflexivity | exact E]. }
  rewrite Hs. destruct (Basic.state w) eqn:Hst.
  - destruct (basic_runChaserEffect_fields w1) as (Hcs & Hcu & _).
    destruct tag as [bytes |].
    + split; [reflexivity |].
      change (Basic.uid (Basic.cardPolling (Some bytes) (Basic.runChaserEffect w1)))
        with (write_uid bytes (Basic.uid (Basic.runChaserEffect w1))).
      rewrite Hcu, Hu. reflexivity.
    + simpl. rewrite Hcs, Hcu, Hs, Hu, ?Hst. split; reflexivity.
  - rewrite basic_state_yellowRamp, He, Hs, ?Hst. split; [reflexivity |].
    unfold Basic.yellowRamp. destruct (_ <=? _); simpl; exact Hu.
  - rewrite Ha. destruct (Basic.audioRunning w && negb ends); simpl.
    + rewrite ?Hs, ?Hu, ?Hst. split; reflexivity.
    + split; [reflexivity | exact Hu].
  - rewrite ?Hs, ?Hu, ?Hst. split; reflexivity.
Qed.

Lemma basic_chaser_update_ok i d :
  0 <= i <= NUM_LEDS - 1 -> (d = 1 \/ d = -1) ->
  (i = 0 -> d = 1) -> (i = NUM_LEDS - 1 -> d = -1) ->
  0 <= fst (chaser_update (i, d)) <= NUM_LEDS - 1 /\
  (snd (chaser_update (i, d)) = 1 \/ snd (chaser_update (i, d)) = -1) /\
  (fst (chaser_update (i, d)) = 0 -> snd (chaser_update (i, d)) = 1) /\
  (fst (chaser_update (i, d)) = NUM_LEDS - 1 -> snd (chaser_update (i, d)) = -1).
Proof.
  unfold chaser_update, NUM_LEDS. simpl fst. simpl snd. intros Hi Hd H0 HN.
  rewrite (sint8_small (i + d)) by lia.
  rewrite (sint8_small (- d)) by lia.
  destruct ((8 - 1 <=? i + d) || (i + d <=? 0)) eqn:B.
  - apply orb_true_iff in B. lia.
  - apply orb_false_iff in B. lia.
Qed.

Lemma basic_inv_step w i :
  Basic.state w <> STATE_ERROR /\ basic_chaser_ok w ->
  Basic.state (basic_step w i) <> STATE_ERROR /\
  basic_chaser_ok (basic_step w i).
Proof.
  intros [Hne Hok]. destruct i as [ms | ends tag started]; [split; assumption |].
  unfold basic_step. split.
  - rewrite basic_state_loop.
    destruct (Basic.state w); try congruence.
    + destruct tag; discriminate.
    + destruct (_ <=? _); discriminate.
    + destruct (_ && _); discriminate.
  - unfold Basic.loop.
    set (w1 := if Basic.audioRunning w
               then Basic.set_audioRunning (Basic.audioRunning w && negb ends) w
               else w).
    assert (Hok1 : basic_chaser_ok w1)
      by (unfold w1; destruct (Basic.audioRunning w); exact Hok).
    clearbody w1.
    assert (Hreset : forall x, basic_chaser_ok (Basic.resetToIdle x)).
    { intros x. unfold basic_chaser_ok, NUM_LEDS. simpl. lia. }
    destruct (Basic.state w1).
    + assert (Hc : basic_chaser_ok (Basic.runChaserEffect w1)).
      { destruct (basic_runChaserEffect_fields w1) as (_ & _ & _ & _ & E).
        destruct Hok1 as (Hi & Hd & H0 & HN).
        unfold basic_chaser_ok.
        destruct (basic_chaser_due w1).
        - pose proof (basic_chaser_update_ok _ _ Hi Hd H0 HN) as Hup.
          rewrite <- E in Hup. exact Hup.
        - injection E as Ei Ed. rewrite Ei, Ed. tauto. }
      destruct tag; exact Hc.
    + unfold Basic.yellowRamp. destruct (_ <=? _); exact Hok1.
    + destruct (negb _); [apply Hreset | exact Hok1].
    + exact Hok1.
Qed.

(** X12. In the single-loop variant, in every execution after [setup]
    (reader found or not), the state is never Error, the chaser index stays
    within [0, NUM_LEDS - 1], and the direction is +1 or -1, pointing inwards
    at either end of the strip. *)
Theorem basic_never_error_and_chaser_in_range (version t0 : Z)
    (ins : list BasicInput) :
  Basic.state (basic_reached version t0 ins) <> STATE_ERROR /\
  0 <= Basic.chaserIndex (basic_reached version t0 ins) <= NUM_LEDS - 1 /\
  (Basic.chaserDir (basic_reached version t0 ins) = 1 \/
   Basic.chaserDir (basic_reached version t0 ins) = -1) /\
  (Basic.chaserIndex (basic_reached version t0 ins) = 0 ->
     Basic.chaserDir (basic_reached version t0 ins) = 1) /\
  (Basic.chaserIndex (basic_reached version t0 ins) = NUM_LEDS - 1 ->
     Basic.chaserDir (basic_reached version t0 ins) = -1).
Proof.
  change (Basic.state (basic_reached version t0 ins) <> STATE_ERROR /\
          basic_chaser_ok (basic_reached version t0 ins)).
  unfold basic_reached, basic_run.
  assert (H0 : Basic.state (Basic.setup version (basic_initial_world t0))
                 <> STATE_ERROR /\
               basic_chaser_ok (Basic.setup version (basic_initial_world t0))).
  { unfold Basic.setup, basic_chaser_ok, NUM_LEDS.
    destruct (version =? 0); simpl; split; try discriminate; lia. }
  revert H0. generalize (Basic.setup version (basic_initial_world t0)).
  induction ins as [| i ins IH]; intros w H; simpl; [exact H |].
  apply IH, basic_inv_step, H.
Qed.

Lemma basic_brightness_ramp_frame b x :
  Basic.brightness
    (Basic.FastLED_show
       (Basic.fill_solid CRGB_Yellow (Basic.FastLED_setBrightness b x)))
    = wrap8 b.
Proof. reflexivity. Qed.

(** X13. In the single-loop variant the ramp leaves the strip brightness at
    the integer linear interpolation between MIN_BRIGHTNESS and
    MAX_BRIGHTNESS while at most RAMP_MS have elapsed and at MAX_BRIGHTNESS
    once RAMP_MS have elapsed (the interpolation reaches it at RAMP_MS);
    the result is within the configured bounds and non-decreasing in the
    elapsed time. *)
Theorem basic_ramp_brightness (started : bool) (w : Basic.World) :
  Basic.brightness (Basic.yellowRamp started w) =
    (if basic_elapsed w <=? Basic.RAMP_MS
     then MIN_BRIGHTNESS
          + basic_elapsed w * (MAX_BRIGHTNESS - MIN_BRIGHTNESS) / Basic.RAMP_MS
     else MAX_BRIGHTNESS) /\
  MIN_BRIGHTNESS <= Basic.brightness (Basic.yellowRamp started w)
    <= MAX_BRIGHTNESS /\
  (forall s2 w2, basic_elapsed w <= basic_elapsed w2 ->
     Basic.brightness (Basic.yellowRamp started w)
       <= Basic.brightness (Basic.yellowRamp s2 w2)).
Proof.
  assert (Hf : forall s x,
    Basic.brightness (Basic.yellowRamp s x) =
      if basic_elapsed x <=? Basic.RAMP_MS
      then MIN_BRIGHTNESS
           + basic_elapsed x * (MAX_BRIGHTNESS - MIN_BRIGHTNESS) / Basic.RAMP_MS
      else MAX_BRIGHTNESS).
  { intros s x.
    assert (Hr : 0 <= basic_elapsed x < 2 ^ 32)
      by (unfold basic_elapsed, wrap32; apply Z.mod_pos_bound; lia).
    unfold Basic.yellowRamp. fold (basic_elapsed x).
    destruct (Z.leb_spec (basic_elapsed x) Basic.RAMP_MS) as [Hle | Hgt];
      [| reflexivity].
    cbv zeta. rewrite basic_brightness_ramp_frame.
    change Basic.RAMP_MS with RAMP_MS in *.
    pose proof (map_ramp_range (basic_elapsed x)) as Hm.
    rewrite !wrap8_small;
      unfold MIN_BRIGHTNESS, MAX_BRIGHTNESS in *; try lia.
    + apply map_ramp. lia.
    + rewrite wrap8_small; lia. }
  assert (Hr : 0 <= basic_elapsed w < 2 ^ 32)
    by (unfold basic_elapsed, wrap32; apply Z.mod_pos_bound; lia).
  split; [apply Hf |]. rewrite Hf.
  unfold Basic.RAMP_MS, MIN_BRIGHTNESS, MAX_BRIGHTNESS.
  split.
  - destruct (Z.leb_spec (basic_elapsed w) 2000) as [H1 | H1]; [| lia].
    assert (0 <= basic_elapsed w * (65 - 2) / 2000 <= 63).
    { split; [apply Z.div_pos; lia | apply Z.div_le_upper_bound; lia]. }
    lia.
  - intros s2 w2 Hle. rewrite Hf.
    assert (Hr2 : 0 <= basic_elapsed w2 < 2 ^ 32)
      by (unfold basic_elapsed, wrap32; apply Z.mod_pos_bound; lia).
    unfold Basic.RAMP_MS, MIN_BRIGHTNESS, MAX_BRIGHTNESS.
    destruct (Z.leb_spec (basic_elapsed w) 2000) as [H1 | H1],
             (Z.leb_spec (basic_elapsed w2) 2000) as [H2 | H2]; try lia.
    + apply Z.add_le_mono_l, Z.div_le_mono; lia.
    + assert (basic_elapsed w * (65 - 2) / 2000 <= 63)
        by (apply Z.div_le_upper_bound; lia).
      lia.
Qed.

(** X14. In the single-loop variant a playback that cannot start does not
    stall the machine: the call of [loop()] that ends the ramp enters
    Success, and if [connecttoFS] left the decoder stopped the very next
    call of [loop()] performs the reset to Idle (state Idle, maximum
    brightness, black strip, chaser at (0, +1)). *)
Theorem basic_failed_start_returns_to_idle (w : Basic.World)
    (ends : bool) (tag : option (list Z))
    (ends2 : bool) (tag2 : option (list Z)) (started2 : bool) :
  Basic.state w = STATE_CARD_DETECTED ->
  Basic.RAMP_MS < basic_elapsed w ->
  Basic.state (Basic.loop ends tag false w) = STATE_SUCCESS /\
  Basic.state (Basic.loop ends2 tag2 started2 (Basic.loop ends tag false w))
    = STATE_IDLE /\
  Basic.brightness (Basic.loop ends2 tag2 started2 (Basic.loop ends tag false w))
    = MAX_BRIGHTNESS /\
  Basic.strip (Basic.loop ends2 tag2 started2 (Basic.loop ends tag false w))
    = (MAX_BRIGHTNESS, replicate (Z.to_nat NUM_LEDS) CRGB_Black) /\
  Basic.chaserIndex (Basic.loop ends2 tag2 started2 (Basic.loop ends tag false w))
    = 0 /\
  Basic.chaserDir (Basic.loop ends2 tag2 started2 (Basic.loop ends tag false w))
    = 1.
Proof.
  intros Hs He.
  assert (H1 : Basic.loop ends tag false w =
               Basic.transitionToSuccess false
                 (Basic.FastLED_setBrightness MAX_BRIGHTNESS
                    (if Basic.audioRunning w
                     then Basic.set_audioRunning
                            (Basic.audioRunning w && negb ends) w
                     else w))).
  { unfold Basic.loop.
    assert (Hs1 : Basic.state
                    (if Basic.audioRunning w
                     then Basic.set_audioRunning
                            (Basic.audioRunning w && negb ends) w
                     else w) = STATE_CARD_DETECTED)
      by (destruct (Basic.audioRunning w); exact Hs).
    rewrite Hs1. unfold Basic.yellowRamp.
    assert (He1 : (wrap32
                     (Basic.millis
                        (if Basic.audioRunning w
                         then Basic.set_audioRunning
                                (Basic.audioRunning w && negb ends) w
                         else w)
                      - Basic.stateStart
                          (if Basic.audioRunning w
                           then Basic.set_audioRunning
                                  (Basic.audioRunning w && negb ends) w
                           else w)) <=? Basic.RAMP_MS) = false).
    { apply Z.leb_gt. destruct (Basic.audioRunning w); exact He. }
    rewrite He1. reflexivity. }
  rewrite H1.
  split; [reflexivity |].
  assert (H2 : forall x,
            Basic.loop ends2 tag2 started2 (Basic.transitionToSuccess false x) =
            Basic.resetToIdle (Basic.transitionToSuccess false x)).
  { intros x. reflexivity. }
  rewrite H2. repeat split.
Qed.

(** * Flags between iterations, and what the strip shows *)

Lemma pending_done_kept ins : forall w,
  Forall not_tick ins ->
  has_bit (ledNotify w) EVT_AUDIO_DONE = true ->
  has_bit (ledNotify (run hz w ins)) EVT_AUDIO_DONE = true.
Proof.
  unfold run.
  induction ins as [| i ins IH]; intros w Hnt Hp; simpl; [exact Hp |].
  inversion Hnt as [| ? ? Hi Hrest]; subst.
  apply IH; [exact Hrest |].
  destruct i as [bits | ticks |]; simpl in *.
  - rewrite has_bit_lor, Hp. reflexivity.
  - exact Hp.
  - contradiction.
Qed.

Lemma raised_done_kept ins : forall w,
  Forall not_tick ins -> Exists raises_done ins ->
  has_bit (ledNotify (run hz w ins)) EVT_AUDIO_DONE = true.
Proof.
  induction ins as [| i ins IH]; intros w Hnt Hex.
  - inversion Hex.
  - inversion Hnt as [| ? ? Hi Hrest]; subst.
    change (run hz w (i :: ins)) with (run hz (step hz w i) ins).
    inversion Hex as [? ? Hd | ? ? Hd]; subst.
    + apply pending_done_kept; [exact Hrest |].
      destruct i as [bits | ticks |]; simpl in Hd; try contradiction.
      simpl. rewrite has_bit_lor, Hd. apply orb_true_r.
    + apply IH; assumption.
Qed.

(** X16. A PlaybackDone flag raised at any point between two iterations of
    the state-machine task is not lost: whatever other bits are raised and
    however much time passes before the next iteration, that iteration
    drains it and ends in Idle, leaving no flag pending. *)
Theorem done_flag_survives_until_drained (w : World) (ins : list Input) :
  Forall not_tick ins -> Exists raises_done ins ->
  state (run hz w (ins ++ [Tick])) = STATE_IDLE /\
  ledNotify (run hz w (ins ++ [Tick])) = 0.
Proof.
  intros Hnt Hex.
  assert (E : run hz w (ins ++ [Tick]) = TaskLEDState_iter hz (run hz w ins)).
  { unfold run. rewrite fold_left_app. reflexivity. }
  rewrite E. split.
  - apply audio_done_resets_from_every_state_aux.
    apply raised_done_kept; assumption.
  - rewrite TaskLEDState_iter_done by (apply raised_done_kept; assumption).
    change (ledNotify (vTaskDelay ?t ?x)) with (ledNotify x).
    assert (Hc : forall x, ledNotify (runChaserStep hz x) = ledNotify x).
    { intros x. unfold runChaserStep.
      destruct (_ <=? _); [| reflexivity].
      match goal with |- context [if ?c then _ else _] => destruct c end;
        unfold store_led; destruct (_ && _); reflexivity. }
    rewrite Hc. destruct (has_bit _ EVT_CARD_DETECTED); reflexivity.
Qed.

Lemma strip_handleNotifications notif w :
  has_bit notif EVT_AUDIO_DONE = false ->
  strip (handleNotifications notif w) = strip w.
Proof.
  intros Hd. unfold handleNotifications. rewrite Hd.
  destruct (has_bit notif EVT_CARD_DETECTED); reflexivity.
Qed.

Lemma strip_runYellowRamp_cases w :
  snd (strip (runYellowRamp hz w)) =
    replicate (Z.to_nat NUM_LEDS)
      (if elapsedMs hz w <=? RAMP_MS then CRGB_Yellow
       else if sdOk w then CRGB_Green else CRGB_Black) /\
  ((elapsedMs hz w <=? RAMP_MS) = false -> sdOk w = true ->
   fst (strip (runYellowRamp hz w)) = MAX_BRIGHTNESS).
Proof.
  destruct (elapsedMs hz w <=? RAMP_MS) eqn:E.
  - rewrite runYellowRamp_in_window by exact E.
    rewrite strip_FastLED_show. split; [reflexivity | discriminate].
  - rewrite runYellowRamp_after_window by exact E.
    unfold transitionToSuccess.
    change (sdOk (setAllLeds CRGB_Green
                    (FastLED_setBrightness MAX_BRIGHTNESS
                       (FastLED_setBrightness MAX_BRIGHTNESS w))))
      with (sdOk w).
    destruct (sdOk w); split; reflexivity || discriminate.
Qed.

Lemma colour_step w i :
  (state w = STATE_SUCCESS ->
     strip w = (MAX_BRIGHTNESS, replicate (Z.to_nat NUM_LEDS) CRGB_Green)) /\
  (state w = STATE_CARD_DETECTED ->
     snd (strip w) = replicate (Z.to_nat NUM_LEDS) CRGB_Yellow) ->
  (state (step hz w i) = STATE_SUCCESS ->
     strip (step hz w i) =
       (MAX_BRIGHTNESS, replicate (Z.to_nat NUM_LEDS) CRGB_Green)) /\
  (state (step hz w i) = STATE_CARD_DETECTED ->
     snd (strip (step hz w i)) = replicate (Z.to_nat NUM_LEDS) CRGB_Yellow).
Proof.
  intros [Hg Hy]. destruct i as [bits | ticks |];
    [split; assumption | split; assumption |].
  unfold step. rewrite state_TaskLEDState_iter_cases.
  rewrite TaskLEDState_iter_unfold. fold (at_switch w).
  change (strip (vTaskDelay ?t ?x)) with (strip x).
  pose proof (state_at_switch w) as Hsw.
  unfold renderState.
  destruct (state (at_switch w)) eqn:Ha.
  - split; discriminate.
  - destruct (strip_runYellowRamp_cases (at_switch w)) as [Hc Hm].
    rewrite sdOk_at_switch in Hc, Hm.
    destruct (elapsedMs hz (at_switch w) <=? RAMP_MS) eqn:E.
    + split; [discriminate | intros _; exact Hc].
    + destruct (sdOk w) eqn:Hsd; [| split; discriminate].
      split; [| discriminate]. intros _.
      specialize (Hm eq_refl eq_refl).
      destruct (strip (runYellowRamp hz (at_switch w))) as [b px].
      simpl in Hc, Hm. rewrite Hc, Hm. reflexivity.
  - split; [| discriminate]. intros _.
    destruct (has_bit (ledNotify w) EVT_AUDIO_DONE) eqn:Hd; [discriminate |].
    unfold at_switch. rewrite strip_handleNotifications by exact Hd.
    destruct (has_bit (ledNotify w) EVT_CARD_DETECTED); [discriminate |].
    apply Hg. symmetry. exact Hsw.
  - split; discriminate.
Qed.

(** X17. In every execution from boot the strip tells the state: whenever the
    state is Success the frame on the strip is all green at MAX_BRIGHTNESS,
    and whenever the state is CardDetected the frame on the strip is all
    yellow. *)
Theorem strip_colour_tells_state (sdMounted : bool) (version t0 : Z)
    (ins : list Input) :
  (state (reached hz sdMounted version t0 ins) = STATE_SUCCESS ->
     strip (reached hz sdMounted version t0 ins) =
       (MAX_BRIGHTNESS, replicate (Z.to_nat NUM_LEDS) CRGB_Green)) /\
  (state (reached hz sdMounted version t0 ins) = STATE_CARD_DETECTED ->
     snd (strip (reached hz sdMounted version t0 ins)) =
       replicate (Z.to_nat NUM_LEDS) CRGB_Yellow).
Proof.
  unfold reached, run.
  assert (H0 : (state (boot sdMounted version t0) = STATE_SUCCESS ->
                  strip (boot sdMounted version t0) =
                    (MAX_BRIGHTNESS, replicate (Z.to_nat NUM_LEDS) CRGB_Green)) /\
               (state (boot sdMounted version t0) = STATE_CARD_DETECTED ->
                  snd (strip (boot sdMounted version t0)) =
                    replicate (Z.to_nat NUM_LEDS) CRGB_Yellow))
    by (split; discriminate).
  revert H0. generalize (boot sdMounted version t0).
  induction ins as [| i ins IH]; intros w H; simpl; [exact H |].
  apply IH, colour_step, H.
Qed.

End Properties.

(** * A detection cycle at the tick rate of the Arduino core *)

Lemma at_switch_no_flag x : ledNotify x = 0 -> at_switch x = set_ledNotify 0 x.
Proof. intros H. unfold at_switch. rewrite H. reflexivity. Qed.

Lemma elapsed_after_first_iteration t dt :
  0 <= dt < 2 ^ 32 - 10 ->
  wrap32 (wrap32 (wrap32 (wrap32 (t + 10) + dt) - t) * 1) = dt + 10.
Proof.
  intros Hdt. rewrite Z.mul_1_r.
  assert (E : wrap32 (wrap32 (t + 10) + dt) = wrap32 (t + (dt + 10))).
  { unfold wrap32. rewrite Zplus_mod_idemp_l. f_equal. lia. }
  rewrite E, wrap32_add_sub.
  rewrite (wrap32_small (dt + 10)) by lia.
  apply wrap32_small. lia.
Qed.

(** X15. At 1000 ticks per second, with the storage mounted, from any state
    in which a CardDetected flag (and no PlaybackDone) is pending: the
    iteration that drains the flag ends in CardDetected; the next iteration,
    [dt] ticks after the first one ended, ends in Success and sends exactly
    one play request if more than RAMP_MS have elapsed since the drain
    (dt + 10 > 2000) and otherwise stays in CardDetected and sends nothing;
    and an iteration that then drains PlaybackDone ends in Idle. *)
Theorem detection_cycle_at_1kHz (w : World) (dt : Z) :
  sdOk w = true ->
  has_bit (ledNotify w) EVT_CARD_DETECTED = true ->
  has_bit (ledNotify w) EVT_AUDIO_DONE = false ->
  0 <= dt < 2 ^ 32 - 10 ->
  state (run arduino_hz w [Tick]) = STATE_CARD_DETECTED /\
  state (run arduino_hz w [Tick; Elapse dt; Tick]) =
    (if dt + 10 <=? RAMP_MS then STATE_CARD_DETECTED else STATE_SUCCESS) /\
  out (run arduino_hz w [Tick; Elapse dt; Tick]) =
    out w ++ [EvDelay 10] ++
      (if dt + 10 <=? RAMP_MS then []
       else [EvNotify taskAudioHandle EVT_PLAY_SUCCESS]) ++ [EvDelay 10] /\
  state (run arduino_hz w [Tick; Elapse dt; Tick; Raise EVT_AUDIO_DONE; Tick])
    = STATE_IDLE.
Proof.
  intros Hsd Hc Hd Hdt.
  change (run arduino_hz w [Tick]) with (TaskLEDState_iter arduino_hz w).
  change (run arduino_hz w [Tick; Elapse dt; Tick])
    with (TaskLEDState_iter arduino_hz (later dt (TaskLEDState_iter arduino_hz w))).
  change (run arduino_hz w [Tick; Elapse dt; Tick; Raise EVT_AUDIO_DONE; Tick])
    with (TaskLEDState_iter arduino_hz
            (xTaskNotify_led EVT_AUDIO_DONE
               (TaskLEDState_iter arduino_hz
                  (later dt (TaskLEDState_iter arduino_hz w))))).
  (* the first iteration *)
  pose proof (TaskLEDState_iter_card_only arduino_hz w Hc Hd) as E1.
  rewrite (runYellowRamp_in_window arduino_hz) in E1
    by (rewrite elapsedMs_changeState; reflexivity).
  set (w1 := TaskLEDState_iter arduino_hz w) in *.
  assert (Hs1 : state w1 = STATE_CARD_DETECTED) by (rewrite E1; reflexivity).
  assert (Hst1 : stateStartTick w1 = tickCount w) by (rewrite E1; reflexivity).
  assert (Ht1 : tickCount w1 = wrap32 (tickCount w + 10)) by (rewrite E1; reflexivity).
  assert (Hn1 : ledNotify w1 = 0) by (rewrite E1; reflexivity).
  assert (Hsd1 : sdOk w1 = true) by (rewrite E1; exact Hsd).
  assert (Ho1 : out w1 = out w ++ [EvDelay 10]) by (rewrite E1; reflexivity).
  clearbody w1. clear E1.
  (* the second iteration *)
  assert (Hsw : at_switch (later dt w1) = set_ledNotify 0 (later dt w1)).
  { apply at_switch_no_flag. exact Hn1. }
  assert (He : elapsedMs arduino_hz (at_switch (later dt w1)) = dt + 10).
  { rewrite Hsw.
    change (elapsedMs arduino_hz (set_ledNotify 0 (later dt w1)))
      with (wrap32 (wrap32 (wrap32 (tickCount w1 + dt) - stateStartTick w1) * 1)).
    rewrite Ht1, Hst1. apply elapsed_after_first_iteration. exact Hdt. }
  assert (Hs2 : state (TaskLEDState_iter arduino_hz (later dt w1)) =
                if dt + 10 <=? RAMP_MS then STATE_CARD_DETECTED else STATE_SUCCESS).
  { rewrite state_TaskLEDState_iter_cases, He, Hsw.
    change (state (set_ledNotify 0 (later dt w1))) with (state w1).
    change (sdOk (later dt w1)) with (sdOk w1).
    rewrite Hs1, Hsd1. reflexivity. }
  split; [exact Hs1 |]. split; [exact Hs2 |]. split.
  - rewrite out_TaskLEDState_iter, He, Hsw.
    change (state (set_ledNotify 0 (later dt w1))) with (state w1).
    change (sdOk (later dt w1)) with (sdOk w1).
    change (out (later dt w1)) with (out w1).
    rewrite Hs1, Hsd1, Ho1, <- app_assoc. reflexivity.
  - apply audio_done_resets_from_every_state_aux.
    change (ledNotify (xTaskNotify_led EVT_AUDIO_DONE ?x))
      with (Z.lor (ledNotify x) EVT_AUDIO_DONE).
    rewrite has_bit_lor. apply orb_true_r.
Qed.

(** * The statements at concrete executions *)

(** C2, as stated, fails: in Success a drained CardDetected flag changes the
    state. *)
Lemma card_flag_in_success_changes_state :
  state world_in_success = STATE_SUCCESS /\
  state (TaskLEDState_iter arduino_hz
           (xTaskNotify_led EVT_CARD_DETECTED world_in_success))
    <> state world_in_success.
Proof. vm_compute. split; [reflexivity | discriminate]. Qed.

Lemma card_flag_enters_ramp_from_every_state_witness :
  state world_in_success = STATE_SUCCESS /\
  state (TaskLEDState_iter arduino_hz
           (xTaskNotify_led EVT_CARD_DETECTED world_in_success))
    = STATE_CARD_DETECTED /\
  stateStartTick (TaskLEDState_iter arduino_hz
                    (xTaskNotify_led EVT_CARD_DETECTED world_in_success))
    = tickCount (xTaskNotify_led EVT_CARD_DETECTED world_in_success).
Proof.
  assert (Hc : has_bit (ledNotify (xTaskNotify_led EVT_CARD_DETECTED world_in_success))
                 EVT_CARD_DETECTED = true) by reflexivity.
  assert (Hd : has_bit (ledNotify (xTaskNotify_led EVT_CARD_DETECTED world_in_success))
                 EVT_AUDIO_DONE = false) by reflexivity.
  pose proof (card_flag_enters_ramp_from_every_state arduino_hz
                (xTaskNotify_led EVT_CARD_DETECTED world_in_success) Hc Hd)
    as (Hs & Ht & _).
  split; [reflexivity |]. split; [exact Hs | exact Ht].
Defined.



Lemma no_storage_success_returns_to_idle_witness :
  sdOk world_ramp_over_no_sd = false /\
  state world_ramp_over_no_sd = STATE_CARD_DETECTED /\
  state (TaskLEDState_iter arduino_hz world_ramp_over_no_sd) = STATE_IDLE /\
  tickCount (TaskLEDState_iter arduino_hz world_ramp_over_no_sd) =
    tickCount world_ramp_over_no_sd + 260 /\
  count is_play_request (out (TaskLEDState_iter arduino_hz world_ramp_over_no_sd))
    = O.
Proof.
  assert (Hsd : sdOk world_ramp_over_no_sd = false) by reflexivity.
  assert (Hs : state world_ramp_over_no_sd = STATE_CARD_DETECTED) by reflexivity.
  assert (Hn : no_flag (ledNotify world_ramp_over_no_sd)) by (split; reflexivity).
  assert (He : RAMP_MS < elapsedMs arduino_hz world_ramp_over_no_sd)
    by (vm_compute; reflexivity).
  pose proof (no_storage_success_returns_to_idle arduino_hz world_ramp_over_no_sd Hsd)
    as (_ & Hiter & Hplay & _).
  destruct (Hiter Hs Hn He) as (Hst & Htick & _).
  split; [exact Hsd |]. split; [exact Hs |]. split; [exact Hst |].
  split; [rewrite Htick; vm_compute; reflexivity |].
  exact (Hplay [Tick]).
Defined.

(** C5, as stated, fails at an elapsed time equal to the window duration: the
    brightness is the maximum but the transition is not taken. *)
Lemma no_transition_at_window_end :
  elapsedMs arduino_hz world_at_window_end = RAMP_MS /\
  brightness (runYellowRamp arduino_hz world_at_window_end) = MAX_BRIGHTNESS /\
  state (runYellowRamp arduino_hz world_at_window_end) = STATE_CARD_DETECTED /\
  state (TaskLEDState_iter arduino_hz world_at_window_end) = STATE_CARD_DETECTED /\
  out (TaskLEDState_iter arduino_hz world_at_window_end) =
    out world_at_window_end ++ [EvDelay 10].
Proof. vm_compute. repeat split. Qed.

Lemma ramp_brightness_monotone_and_clamped_witness :
  elapsedMs arduino_hz world_ramping = 10 /\
  brightness (runYellowRamp arduino_hz world_ramping) = 2 /\
  brightness (runYellowRamp arduino_hz world_ramping)
    <= brightness (runYellowRamp arduino_hz world_at_window_end) /\
  brightness (runYellowRamp arduino_hz world_at_window_end) = MAX_BRIGHTNESS /\
  state (runYellowRamp arduino_hz world_ramp_over) =
    (if sdOk world_ramp_over then STATE_SUCCESS else STATE_IDLE) /\
  state (runYellowRamp arduino_hz world_ramp_over_no_sd) =
    (if sdOk world_ramp_over_no_sd then STATE_SUCCESS else STATE_IDLE).
Proof.
  pose proof (ramp_brightness_monotone_and_clamped arduino_hz world_ramping)
    as (Hlin & _ & Hmono & _).
  pose proof (ramp_brightness_monotone_and_clamped arduino_hz world_at_window_end)
    as (_ & Hmax & _).
  pose proof (ramp_brightness_monotone_and_clamped arduino_hz world_ramp_over)
    as (_ & _ & _ & _ & _ & Hgo).
  pose proof (ramp_brightness_monotone_and_clamped arduino_hz world_ramp_over_no_sd)
    as (_ & _ & _ & _ & _ & Hgo2).
  split; [reflexivity |].
  split; [rewrite Hlin; [reflexivity | vm_compute; discriminate] |].
  split; [apply Hmono; vm_compute; discriminate |].
  split; [apply Hmax; vm_compute; discriminate |].
  split.
  - apply Hgo. vm_compute. reflexivity.
  - apply Hgo2. vm_compute. reflexivity.
Defined.

Lemma success_implies_sdOk_witness :
  state (reached arduino_hz true 1 0 detection_cycle) = STATE_SUCCESS /\
  sdOk (reached arduino_hz true 1 0 detection_cycle) = true.
Proof.
  assert (H : state (reached arduino_hz true 1 0 detection_cycle) = STATE_SUCCESS)
    by (vm_compute; reflexivity).
  split; [exact H |].
  exact (proj1 (success_implies_sdOk arduino_hz true 1 0 detection_cycle H)).
Defined.

Lemma audio_done_resets_from_every_state_witness :
  state world_ramping = STATE_CARD_DETECTED /\
  state (TaskLEDState_iter arduino_hz
           (xTaskNotify_led EVT_AUDIO_DONE world_ramping)) = STATE_IDLE.
Proof.
  assert (H : has_bit (ledNotify (xTaskNotify_led EVT_AUDIO_DONE world_ramping))
                EVT_AUDIO_DONE = true) by reflexivity.
  split; [reflexivity |].
  exact (proj2 (audio_done_resets_from_every_state arduino_hz
                  (xTaskNotify_led EVT_AUDIO_DONE world_ramping) H)).
Defined.

(** The chaser over a full sweep: from boot, 14 steps visit every position,
    the last one included, and come back to (0, +1). *)
Example chaser_full_sweep :
  List.map (fun k => chaserIndex
              (reached arduino_hz true 1 0
                 (concat (replicate k [Elapse 120; Tick]))))
    [0; 1; 6; 7; 8; 13; 14]%nat
  = [0; 1; 6; 7; 6; 1; 0] /\
  List.map (fun k => chaserDir
              (reached arduino_hz true 1 0
                 (concat (replicate k [Elapse 120; Tick]))))
    [0; 1; 6; 7; 8; 13; 14]%nat
  = [1; 1; 1; -1; -1; -1; 1].
Proof. vm_compute. split; reflexivity. Qed.

(** A polling sequence of the card sensor: miss, detection, busy. *)
Example nfc_trace_example :
  nfc_out (TaskNFC_run arduino_hz nfc_boot
             [(STATE_IDLE, None); (STATE_IDLE, Some [4; 17; 34; 51]);
              (STATE_CARD_DETECTED, Some [9])])
  = [EvPoll 50; EvDelay 40;
     EvPoll 50; EvNotify taskLedHandle EVT_CARD_DETECTED; EvDelay 300;
     EvDelay 80].
Proof. vm_compute. reflexivity. Qed.

Lemma success_has_play_request_witness :
  state (reached arduino_hz true 1 0 detection_cycle) = STATE_SUCCESS /\
  (0 < count is_play_request (out (reached arduino_hz true 1 0 detection_cycle)))%nat.
Proof.
  assert (H : state (reached arduino_hz true 1 0 detection_cycle) = STATE_SUCCESS)
    by (vm_compute; reflexivity).
  split; [exact H |].
  exact (proj2 (success_has_play_request arduino_hz true 1 0 detection_cycle
                  world_in_success) H).
Defined.

Lemma chaser_frame_witness :
  chaser_ok world_chaser_due /\
  chaser_due arduino_hz world_chaser_due = true /\
  fst (strip (runChaserStep arduino_hz world_chaser_due))
    = brightness world_chaser_due /\
  length (snd (strip (runChaserStep arduino_hz world_chaser_due)))
    = Z.to_nat NUM_LEDS.
Proof.
  assert (Hok : chaser_ok world_chaser_due).
  { unfold chaser_ok, NUM_LEDS.
    change (chaserIndex world_chaser_due) with 0.
    change (chaserDir world_chaser_due) with 1. lia. }
  assert (Hdue : chaser_due arduino_hz world_chaser_due = true)
    by (vm_compute; reflexivity).
  pose proof (chaser_frame arduino_hz world_chaser_due Hok Hdue)
    as (Hb & Hl & _).
  split; [exact Hok |]. split; [exact Hdue |]. split; [exact Hb | exact Hl].
Defined.

Lemma chaser_sweeps_and_is_periodic_witness :
  chaser_ok (boot true 1 0) /\
  chaserIndex (Nat.iter 14 (chaser_tick arduino_hz) (boot true 1 0))
    = chaserIndex (boot true 1 0) /\
  chaserDir (Nat.iter 14 (chaser_tick arduino_hz) (boot true 1 0))
    = chaserDir (boot true 1 0).
Proof.
  assert (Hok : chaser_ok (boot true 1 0)).
  { unfold chaser_ok, NUM_LEDS.
    change (chaserIndex (boot true 1 0)) with 0.
    change (chaserDir (boot true 1 0)) with 1. lia. }
  pose proof (chaser_sweeps_and_is_periodic arduino_hz (boot true 1 0) Hok)
    as (Hi & Hd & _).
  split; [exact Hok |]. split; [exact Hi | exact Hd].
Defined.

Lemma timing_survives_tick_overflow_witness :
  tickCount (later 10 (changeState STATE_CARD_DETECTED world_near_overflow)) = 5 /\
  elapsedMs arduino_hz
    (later 10 (changeState STATE_CARD_DETECTED world_near_overflow))
    = wrap32 (10 * portTICK_PERIOD_MS arduino_hz).
Proof.
  assert (Hd : 0 <= 10 < 2 ^ 32) by lia.
  split; [vm_compute; reflexivity |].
  exact (proj1 (timing_survives_tick_overflow arduino_hz world_near_overflow
                  STATE_CARD_DETECTED 10 Hd)).
Defined.

Lemma basic_never_error_and_chaser_in_range_witness :
  Basic.state (basic_reached 0 0 [BLoop false None false]) <> STATE_ERROR /\
  0 <= Basic.chaserIndex (basic_reached 0 0 [BLoop false None false])
    <= NUM_LEDS - 1.
Proof.
  pose proof (basic_never_error_and_chaser_in_range 0 0 [BLoop false None false])
    as (Hs & Hi & _).
  split; [exact Hs | exact Hi].
Defined.

Lemma basic_ramp_brightness_witness :
  MIN_BRIGHTNESS <= Basic.brightness (Basic.yellowRamp false basic_world_ramp_over)
    <= MAX_BRIGHTNESS.
Proof.
  exact (proj1 (proj2 (basic_ramp_brightness false basic_world_ramp_over))).
Defined.

Lemma basic_failed_start_returns_to_idle_witness :
  Basic.state basic_world_ramp_over = STATE_CARD_DETECTED /\
  Basic.state (Basic.loop false None false basic_world_ramp_over) = STATE_SUCCESS /\
  Basic.state (Basic.loop false None false
                 (Basic.loop false None false basic_world_ramp_over))
    = STATE_IDLE.
Proof.
  assert (Hs : Basic.state basic_world_ramp_over = STATE_CARD_DETECTED)
    by (vm_compute; reflexivity).
  assert (He : Basic.RAMP_MS < basic_elapsed basic_world_ramp_over)
    by (vm_compute; reflexivity).
  pose proof (basic_failed_start_returns_to_idle basic_world_ramp_over
                false None false None false Hs He) as (H1 & H2 & _).
  split; [exact Hs |]. split; [exact H1 | exact H2].
Defined.

Lemma detection_cycle_at_1kHz_witness :
  state (run arduino_hz world_card_pending [Tick; Elapse 1991; Tick]) =
    (if 1991 + 10 <=? RAMP_MS then STATE_CARD_DETECTED else STATE_SUCCESS) /\
  state (run arduino_hz world_card_pending
           [Tick; Elapse 1991; Tick; Raise EVT_AUDIO_DONE; Tick]) = STATE_IDLE.
Proof.
  assert (Hsd : sdOk world_card_pending = true) by reflexivity.
  assert (Hc : has_bit (ledNotify world_card_pending) EVT_CARD_DETECTED = true)
    by reflexivity.
  assert (Hd : has_bit (ledNotify world_card_pending) EVT_AUDIO_DONE = false)
    by reflexivity.
  assert (Hdt : 0 <= 1991 < 2 ^ 32 - 10) by lia.
  pose proof (detection_cycle_at_1kHz world_card_pending 1991 Hsd Hc Hd Hdt)
    as (_ & H2 & _ & H4).
  split; [exact H2 | exact H4].
Defined.

Lemma done_flag_survives_until_drained_witness :
  state world_ramping = STATE_CARD_DETECTED /\
  state (run arduino_hz world_ramping (done_between_iterations ++ [Tick]))
    = STATE_IDLE.
Proof.
  assert (Hnt : Forall not_tick done_between_iterations)
    by (repeat constructor).
  assert (Hex : Exists raises_done done_between_iterations).
  { apply Exists_cons_tl, Exists_cons_hd. reflexivity. }
  split; [reflexivity |].
  exact (proj1 (done_flag_survives_until_drained arduino_hz world_ramping
                  done_between_iterations Hnt Hex)).
Defined.

Lemma strip_colour_tells_state_witness :
  state (reached arduino_hz true 1 0 detection_cycle) = STATE_SUCCESS /\
  strip (reached arduino_hz true 1 0 detection_cycle) =
    (MAX_BRIGHTNESS, replicate (Z.to_nat NUM_LEDS) CRGB_Green).
Proof.
  assert (H : state (reached arduino_hz true 1 0 detection_cycle) = STATE_SUCCESS)
    by (vm_compute; reflexivity).
  split; [exact H |].
  exact (proj1 (strip_colour_tells_state arduino_hz true 1 0 detection_cycle) H).
Defined.

(** The identifier buffer keeps what a shorter identifier does not
    overwrite: a 7-byte tag followed by a 4-byte tag, and the first tag of
    the single-loop variant. *)
Example uid_buffer_keeps_tail :
  uid (TaskNFC_run arduino_hz nfc_boot
         [(STATE_IDLE, Some [1; 2; 3; 4; 5; 6; 7]);
          (STATE_IDLE, Some [9; 9; 9; 9])])
    = [9; 9; 9; 9; 5; 6; 7] /\
  nfc_identifier (TaskNFC_run arduino_hz nfc_boot
                    [(STATE_IDLE, Some [1; 2; 3; 4; 5; 6; 7]);
                     (STATE_IDLE, Some [9; 9; 9; 9])])
    = [9; 9; 9; 9] /\
  Basic.uid (basic_reached 1 0 [BLoop false (Some [4; 17; 34; 51]) false])
    = [4; 17; 34; 51; 0; 0; 0].
Proof. vm_compute. repeat split. Qed.

(** A play request drained in the iteration in which [audio.loop()] has just
    ended the previous stream: the decoder is not running at the drain, but
    the task has not recorded the end yet ([wasRunning] is still true), the
    run is not serialized, and the earlier request never gets its flag. *)
Example request_at_stream_end_loses_a_flag :
  serialized arduino_hz audio_boot request_at_stream_end = false /\
  running (audio_run arduino_hz audio_boot request_at_stream_end) = false /\
  count is_connect (audio_out (audio_run arduino_hz audio_boot request_at_stream_end))
    = 2%nat /\
  count is_done (audio_out (audio_run arduino_hz audio_boot request_at_stream_end))
    = 1%nat.
Proof. vm_compute. repeat split. Qed.
